(** * auto-upgrade-testing: provisioning specifications and host preparation

    A shallow embedding of
      - [upgrade_testing/provisioning/_provisionconfig.py]
      - [upgrade_testing/preparation/_hostprep.py]
    together with the properties their specification states about them.

    Python values are embedded as the inductive type [pyval], exceptions as
    the type [exn], and a Python call that may raise as a value of
    [result].  The file system touched by the host preparation is a finite
    map from path strings to nodes, threaded through a state-and-error
    monad. *)

From Stdlib Require Import ZArith Ascii String List Lia.
From stdpp Require Import base option list strings pretty gmap fin_maps.

Local Open Scope string_scope.
Local Open Scope Z_scope.

(** ** Characters that cannot be written inside a string literal *)

Definition dquote_char : ascii := "034"%char.
Definition squote_char : ascii := "039"%char.
Definition backslash_char : ascii := "092"%char.
Definition newline_char : ascii := "010"%char.
Definition tab_char : ascii := "009"%char.
Definition cr_char : ascii := "013"%char.
Definition slash_char : ascii := "/"%char.

Definition dq : string := String dquote_char "".
Definition nl : string := String newline_char "".

(** ** Python values *)

(** The values a configuration mapping read from a test definition can
    hold.  A dict keeps its insertion order (which [repr] shows), so it is an
    association list; its keys are strings, as the keys of a test definition
    are. *)
#[warnings="-register-all"]
Inductive pyval : Type :=
  | PNone
  | PBool (b : bool)
  | PInt (z : Z)
  | PStr (s : string)
  | PList (l : list pyval)
  | PDict (d : list (string * pyval)).

(** Exceptions, by class.  [KeyError] carries the key that was looked up and
    [ValueError] its message; [BackendError] stands for whatever a backend
    constructor raises. *)
Inductive exn : Type :=
  | KeyError (key : pyval)
  | ValueError (msg : string)
  | IndexError
  | TypeError
  | AttributeError
  | NotImplementedError
  | UnboundLocalError
  | RecursionError
  | FileNotFoundError (p : string)
  | FileExistsError (p : string)
  | NotADirectoryError (p : string)
  | IsADirectoryError (p : string)
  | SameFileError (p : string)
  | BackendError (code : Z)
  | ScopeError (code : Z).

Inductive result (A : Type) : Type :=
  | Ok (a : A)
  | Raise (e : exn).
Arguments Ok {A} a.
Arguments Raise {A} e.

#[global] Instance result_ret : MRet result := fun A a => Ok a.
#[global] Instance result_bind : MBind result := fun A B f m =>
  match m with
  | Ok a => f a
  | Raise e => Raise e
  end.
#[global] Instance result_fmap : FMap result := fun A B f m =>
  match m with
  | Ok a => Ok (f a)
  | Raise e => Raise e
  end.

(** ** [str] and [repr] *)

Definition hex_digit (n : N) : ascii :=
  match n with
  | 0%N => "0" | 1%N => "1" | 2%N => "2" | 3%N => "3"
  | 4%N => "4" | 5%N => "5" | 6%N => "6" | 7%N => "7"
  | 8%N => "8" | 9%N => "9" | 10%N => "a" | 11%N => "b"
  | 12%N => "c" | 13%N => "d" | 14%N => "e" | _ => "f"
  end%char.

Fixpoint str_contains_char (c : ascii) (s : string) : bool :=
  match s with
  | EmptyString => false
  | String a r => if Ascii.eqb a c then true else str_contains_char c r
  end.

(** [repr] of one character of a [str], inside the quote [q].  Bytes from
    128 up belong to encoded printable text and are kept. *)
Definition repr_char (q c : ascii) : string :=
  if Ascii.eqb c q || Ascii.eqb c backslash_char then
    String backslash_char (String c "")
  else if Ascii.eqb c tab_char then "\t"
  else if Ascii.eqb c newline_char then "\n"
  else if Ascii.eqb c cr_char then "\r"
  else
    let n := N_of_ascii c in
    if (n <? 32)%N || (n =? 127)%N then
      String backslash_char
        (String "x" (String (hex_digit (n / 16)) (String (hex_digit (n mod 16)) "")))
    else String c "".

Fixpoint repr_chars (q : ascii) (s : string) : string :=
  match s with
  | EmptyString => ""
  | String c r => repr_char q c ++ repr_chars q r
  end.

(** [repr] of a [str]: single quotes, unless the text has a single quote
    and no double quote. *)
Definition str_repr (s : string) : string :=
  let q := if str_contains_char squote_char s && negb (str_contains_char dquote_char s)
           then dquote_char else squote_char in
  String q (repr_chars q s ++ String q "").

Fixpoint join (sep : string) (l : list string) : string :=
  match l with
  | [] => ""
  | [x] => x
  | x :: r => x ++ sep ++ join sep r
  end.

Fixpoint py_repr (v : pyval) : string :=
  match v with
  | PNone => "None"
  | PBool true => "True"
  | PBool false => "False"
  | PInt z => pretty z
  | PStr s => str_repr s
  | PList l => "[" ++ join ", " (map py_repr l) ++ "]"
  | PDict d =>
      "{" ++ join ", " (map (fun kv => str_repr (fst kv) ++ ": " ++ py_repr (snd kv)) d) ++ "}"
  end.

(** [str(v)], which is also what [format] puts in place of a plain
    replacement field. *)
Definition py_str (v : pyval) : string :=
  match v with
  | PStr s => s
  | _ => py_repr v
  end.

(** [str(e)] for the exceptions whose text the code reads. *)
Definition exn_str (e : exn) : string :=
  match e with
  | KeyError k => py_repr k
  | ValueError msg => msg
  | _ => ""
  end.

(** ** Subscription, [dict.get] and iteration *)

Fixpoint dict_lookup (k : string) (d : list (string * pyval)) : option pyval :=
  match d with
  | [] => None
  | (k', v) :: r => if String.eqb k' k then Some v else dict_lookup k r
  end.

(** [seq[i]] on a sequence with elements [l]: a negative index counts from
    the end. *)
Definition seq_index {A : Type} (l : list A) (i : Z) : result A :=
  let n := Z.of_nat (length l) in
  let j := if i <? 0 then n + i else i in
  if (0 <=? j) && (j <? n) then
    match nth_error l (Z.to_nat j) with
    | Some x => Ok x
    | None => Raise IndexError
    end
  else Raise IndexError.

Definition str_chars (s : string) : list pyval :=
  map (fun c => PStr (String c "")) (list_ascii_of_string s).

(** [v[k]] for a string key [k]. *)
Definition getitem_key (v : pyval) (k : string) : result pyval :=
  match v with
  | PDict d =>
      match dict_lookup k d with
      | Some x => Ok x
      | None => Raise (KeyError (PStr k))
      end
  | _ => Raise TypeError
  end.

(** [v[i]] for an integer index [i]. *)
Definition getitem_idx (v : pyval) (i : Z) : result pyval :=
  match v with
  | PList l => seq_index l i
  | PStr s => seq_index (str_chars s) i
  | PDict d => Raise (KeyError (PInt i))
  | _ => Raise TypeError
  end.

(** [v.get(k, default)]: only a dict has the method. *)
Definition py_get (v : pyval) (k : string) (default : pyval) : result pyval :=
  match v with
  | PDict d =>
      match dict_lookup k d with
      | Some x => Ok x
      | None => Ok default
      end
  | _ => Raise AttributeError
  end.

(** The elements [for r in v] runs through. *)
Definition py_iter (v : pyval) : result (list pyval) :=
  match v with
  | PList l => Ok l
  | PStr s => Ok (str_chars s)
  | PDict d => Ok (map (fun kv => PStr (fst kv)) d)
  | _ => Raise TypeError
  end.

(** ** Provisioning specifications ([_provisionconfig.py]) *)

(** The backend constructors of [upgrade_testing.provisioning.backends]:
    collaborators of the specification classes, which build a handle or
    raise. *)
Class Backends : Type := {
  Backend : Type;
  LXCBackend : pyval -> pyval -> result Backend;
  DeviceBackend : pyval -> pyval -> pyval -> pyval -> result Backend
}.

(** The contract of [ProvisionSpecification]: three read-only properties. *)
Class ProvisionSpec (T : Type) : Type := {
  system_states : T -> result pyval;
  initial_state : T -> result pyval;
  final_state : T -> result pyval
}.

Record LXCProvisionSpecification `{Backends} : Type := {
  lxc_distribution : pyval;
  lxc_releases : pyval;
  lxc_backend : Backend
}.

Record DeviceProvisionSpecification `{Backends} : Type := {
  dev_channel : pyval;
  dev_revisions : pyval;
  dev_backend : Backend
}.

Definition lxc_system_states (releases : pyval) : result pyval := Ok releases.
Definition lxc_initial_state (releases : pyval) : result pyval := getitem_idx releases 0.
Definition lxc_final_state (releases : pyval) : result pyval := getitem_idx releases (-1).

#[global] Instance LXC_ProvisionSpec `{Backends} : ProvisionSpec LXCProvisionSpecification := {
  system_states self := lxc_system_states (lxc_releases self);
  initial_state self := lxc_initial_state (lxc_releases self);
  final_state self := lxc_final_state (lxc_releases self)
}.

Definition _construct_state_string (channel rev : pyval) : pyval :=
  PStr (py_str channel ++ ":" ++ py_str rev).

Definition dev_system_states (channel revisions : pyval) : result pyval :=
  rs ← py_iter revisions;
  mret (PList (map (_construct_state_string channel) rs)).
Definition dev_initial_state (channel revisions : pyval) : result pyval :=
  r ← getitem_idx revisions 0;
  mret (_construct_state_string channel r).
Definition dev_final_state (channel revisions : pyval) : result pyval :=
  r ← getitem_idx revisions (-1);
  mret (_construct_state_string channel r).

#[global] Instance Device_ProvisionSpec `{Backends} : ProvisionSpec DeviceProvisionSpecification := {
  system_states self := dev_system_states (dev_channel self) (dev_revisions self);
  initial_state self := dev_initial_state (dev_channel self) (dev_revisions self);
  final_state self := dev_final_state (dev_channel self) (dev_revisions self)
}.

(** [LXCProvisionSpecification.__init__] *)
Definition LXCProvisionSpecification_init `{Backends} (provision_config : pyval)
  : result LXCProvisionSpecification :=
  distribution ← py_get provision_config "distribution" (PStr "ubuntu");
  releases ← getitem_key provision_config "releases";
  initial ← lxc_initial_state releases;
  backend ← LXCBackend initial distribution;
  mret {| lxc_distribution := distribution; lxc_releases := releases; lxc_backend := backend |}.

(** The [try] block of [DeviceProvisionSpecification.__init__]: a
    [KeyError] leaves it as a [ValueError]. *)
Definition dev_required_fields (provision_config : pyval) : result (pyval * pyval) :=
  match (channel ← getitem_key provision_config "channel";
         revisions ← getitem_key provision_config "revisions";
         mret (channel, revisions)) with
  | Raise (KeyError k) => Raise (ValueError ("Missing config detail: " ++ exn_str (KeyError k)))
  | r => r
  end.

(** [DeviceProvisionSpecification.__init__] *)
Definition DeviceProvisionSpecification_init `{Backends} (provision_config : pyval)
  : result DeviceProvisionSpecification :=
  '(channel, revisions) ← dev_required_fields provision_config;
  serial ← py_get provision_config "serial" PNone;
  password ← py_get provision_config "password" PNone;
  initial ← dev_initial_state channel revisions;
  backend ← DeviceBackend channel initial password serial;
  mret {| dev_channel := channel; dev_revisions := revisions; dev_backend := backend |}.

(** A constructed specification is of one of the two registered classes. *)
Inductive ProvisionSpecification `{Backends} : Type :=
  | LXCSpec (s : LXCProvisionSpecification)
  | DeviceSpec (s : DeviceProvisionSpecification).

#[global] Instance Any_ProvisionSpec `{Backends} : ProvisionSpec ProvisionSpecification := {
  system_states self :=
    match self with LXCSpec s => system_states s | DeviceSpec s => system_states s end;
  initial_state self :=
    match self with LXCSpec s => initial_state s | DeviceSpec s => initial_state s end;
  final_state self :=
    match self with LXCSpec s => final_state s | DeviceSpec s => final_state s end
}.

Inductive spec_type : Type := LXCType | DeviceType.

(** [get_specification_type]: subscription of the dict
    [dict(lxc=..., device=...)].  A list or a dict cannot be hashed. *)
Definition get_specification_type (spec_name : pyval) : result spec_type :=
  match spec_name with
  | PList _ | PDict _ => Raise TypeError
  | PStr s =>
      if String.eqb s "lxc" then Ok LXCType
      else if String.eqb s "device" then Ok DeviceType
      else Raise (KeyError spec_name)
  | _ => Raise (KeyError spec_name)
  end.

(** Calling the class [get_specification_type] returned. *)
Definition construct `{Backends} (t : spec_type) (provision_config : pyval)
  : result ProvisionSpecification :=
  match t with
  | LXCType => LXCSpec <$> LXCProvisionSpecification_init provision_config
  | DeviceType => DeviceSpec <$> DeviceProvisionSpecification_init provision_config
  end.

Definition from_testspec `{Backends} (spec : pyval) : result ProvisionSpecification :=
  provisioning ← getitem_key spec "provisioning";
  backend_name ← getitem_key provisioning "backend";
  spec_type ← get_specification_type backend_name;
  provisioning' ← getitem_key spec "provisioning";
  construct spec_type provisioning'.

Definition from_provisionspec `{Backends} (spec : pyval) : result ProvisionSpecification :=
  backend_name ← getitem_key spec "backend";
  spec_type ← get_specification_type backend_name;
  construct spec_type spec.

(** ** Paths and the file system *)

(** A path is the string the code passes around. *)
Abbreviation path := string.

Inductive node : Type :=
  | Dir
  | File (content : string).

Definition is_slash (c : ascii) : bool := Ascii.eqb c slash_char.

Fixpoint all_slashes (s : string) : bool :=
  match s with
  | EmptyString => true
  | String c r => is_slash c && all_slashes r
  end.

Fixpoint ends_with_slash (s : string) : bool :=
  match s with
  | EmptyString => false
  | String c EmptyString => is_slash c
  | String _ r => ends_with_slash r
  end.

Definition starts_with_slash (s : string) : bool :=
  match s with
  | String c _ => is_slash c
  | EmptyString => false
  end.

(** [os.path.join(a, b)] *)
Definition path_join (a b : path) : path :=
  if starts_with_slash b then b
  else if String.eqb a "" || ends_with_slash a then a ++ b
  else a ++ "/" ++ b.

(** [p[:i], p[i:]] for [i = p.rfind('/') + 1], when [p] has a slash. *)
Fixpoint rsplit_slash (p : string) : option (string * string) :=
  match p with
  | EmptyString => None
  | String c r =>
      match rsplit_slash r with
      | Some (h, t) => Some (String c h, t)
      | None => if is_slash c then Some (String c "", r) else None
      end
  end.

(** [s.rstrip('/')] *)
Fixpoint rstrip_slash (s : string) : string :=
  match s with
  | EmptyString => ""
  | String c r =>
      let r' := rstrip_slash r in
      if is_slash c && String.eqb r' "" then "" else String c r'
  end.

(** [os.path.split(p)] *)
Definition path_split (p : path) : path * string :=
  match rsplit_slash p with
  | None => ("", p)
  | Some (head, tail) =>
      (if negb (String.eqb head "") && negb (all_slashes head)
       then rstrip_slash head else head, tail)
  end.

Definition dirname (p : path) : path := fst (path_split p).

(** The directory under which the entries of [d] live, as a prefix. *)
Definition dir_prefix (d : path) : string :=
  if ends_with_slash d then d else d ++ "/".

(** [p] names something below the directory [d]. *)
Definition path_inside (d p : path) : bool :=
  String.prefix (dir_prefix d) p
  && (String.length (dir_prefix d) <? String.length p)%nat.

(** [p] is [d] or lies below it: what removing the tree [d] removes. *)
Definition in_tree (d p : path) : bool := String.eqb p d || path_inside d p.

(** The state of the file system: the node at each path that exists.
    Paths are told apart as strings. *)
Definition M (A : Type) : Type := gmap string node -> result A * gmap string node.

Definition retM {A : Type} (a : A) : M A := fun σ => (Ok a, σ).
Definition bindM {A B : Type} (m : M A) (f : A -> M B) : M B := fun σ =>
  match m σ with
  | (Ok a, σ') => f a σ'
  | (Raise e, σ') => (Raise e, σ')
  end.

Notation "x <~ m ;; k" := (bindM m (fun x => k))
  (at level 100, m at next level, right associativity).
Notation "m ;;; k" := (bindM m (fun _ => k))
  (at level 100, right associativity).

Definition raise {A : Type} (e : exn) : M A := fun σ => (Raise e, σ).
Definition lift {A : Type} (r : result A) : M A := fun σ => (r, σ).

(** [try: body finally: fin] *)
Definition try_finally {A : Type} (body : M A) (fin : M unit) : M A := fun σ =>
  let '(r, σ1) := body σ in
  match fin σ1 with
  | (Ok _, σ2) => (r, σ2)
  | (Raise e, σ2) => (Raise e, σ2)
  end.

(** [os.path.exists(p)]; the root always exists. *)
Definition path_exists (σ : gmap string node) (p : path) : bool :=
  (negb (String.eqb p "") && all_slashes p) || bool_decide (is_Some (σ !! p)).

(** The directory [d] can take a new entry: it is the root, the current
    directory, or a directory that exists. *)
Definition dir_ok (d : path) : M unit := fun σ =>
  if all_slashes d then (Ok tt, σ)
  else match σ !! d with
       | Some Dir => (Ok tt, σ)
       | Some (File _) => (Raise (NotADirectoryError d), σ)
       | None => (Raise (FileNotFoundError d), σ)
       end.

(** [os.mkdir(p)] *)
Definition mkdir (p : path) : M unit :=
  dir_ok (dirname p) ;;;
  fun σ => match σ !! p with
           | Some _ => (Raise (FileExistsError p), σ)
           | None => (Ok tt, <[p := Dir]> σ)
           end.

(** [os.makedirs(name)], [fuel] bounding the depth of its recursion. *)
Fixpoint makedirs_rec (fuel : nat) (name : path) : M unit :=
  match fuel with
  | O => raise RecursionError
  | S fuel' =>
      let '(head, tail) := path_split name in
      let '(head, tail) := if String.eqb tail "" then path_split head else (head, tail) in
      fun σ =>
        if negb (String.eqb head "") && negb (String.eqb tail "") && negb (path_exists σ head)
        then match makedirs_rec fuel' head σ with
             | (Ok _, σ1) | (Raise (FileExistsError _), σ1) =>
                 if String.eqb tail "." then (Ok tt, σ1) else mkdir name σ1
             | (Raise e, σ1) => (Raise e, σ1)
             end
        else mkdir name σ
  end.

Definition makedirs (name : path) : M unit :=
  makedirs_rec (S (String.length name)) name.

(** [open(p, 'rb').read()] *)
Definition read_file (p : path) : M string := fun σ =>
  match σ !! p with
  | Some (File c) => (Ok c, σ)
  | Some Dir => (Raise (IsADirectoryError p), σ)
  | None => (Raise (FileNotFoundError p), σ)
  end.

(** [open(p, 'w')]: the file is created or emptied. *)
Definition open_truncate (p : path) : M unit :=
  dir_ok (dirname p) ;;;
  fun σ => match σ !! p with
           | Some Dir => (Raise (IsADirectoryError p), σ)
           | _ => (Ok tt, <[p := File ""]> σ)
           end.

(** [open(p, 'a').close()]: the file is created when absent. *)
Definition open_append_close (p : path) : M unit :=
  dir_ok (dirname p) ;;;
  fun σ => match σ !! p with
           | Some Dir => (Raise (IsADirectoryError p), σ)
           | Some (File _) => (Ok tt, σ)
           | None => (Ok tt, <[p := File ""]> σ)
           end.

(** [f.write(text)] on the file opened at [p]. *)
Definition file_write (p : path) (text : string) : M unit := fun σ =>
  match σ !! p with
  | Some (File c) => (Ok tt, <[p := File (c ++ text)]> σ)
  | Some Dir => (Raise (IsADirectoryError p), σ)
  | None => (Raise (FileNotFoundError p), σ)
  end.

(** [shutil.copyfile(src, dst)] *)
Definition copyfile (src dst : path) : M unit :=
  fun σ =>
    if String.eqb src dst && bool_decide (is_Some (σ !! src))
    then (Raise (SameFileError src), σ)
    else (c <~ read_file src ;;
          open_truncate dst ;;;
          file_write dst c) σ.

(** [shutil.rmtree(d)] *)
Definition rmtree (d : path) : M unit := fun σ =>
  match σ !! d with
  | None => (Raise (FileNotFoundError d), σ)
  | Some (File _) => (Raise (NotADirectoryError d), σ)
  | Some Dir => (Ok tt, filter (fun kv => in_tree d (fst kv) = false) σ)
  end.

(** What the host provides: the directory [tempfile] works in, the
    storage location [get_testbed_storage_location()] returns, and the
    directory [pkg_resources] resolves the package data to. *)
Class HostEnv : Type := {
  tempdir : path;
  testbed_location : string;
  source_dir : path
}.

(** [tempfile.mkdtemp()], [rnd] being the random part of the name it
    settles on. *)
Definition mkdtemp `{HostEnv} (rnd : string) : M path :=
  let file := path_join tempdir ("tmp" ++ rnd) in
  dir_ok tempdir ;;;
  fun σ => match σ !! file with
           | Some _ => (Raise (FileExistsError file), σ)
           | None => (Ok file, <[file := Dir]> σ)
           end.

(** [tempfile.mkstemp(dir=dir)[1]] *)
Definition mkstemp (dir : path) (rnd : string) : M path :=
  let file := path_join dir ("tmp" ++ rnd) in
  dir_ok dir ;;;
  fun σ => match σ !! file with
           | Some _ => (Raise (FileExistsError file), σ)
           | None => (Ok file, <[file := File ""]> σ)
           end.

(** ** [textwrap.dedent] *)

Definition is_space_or_tab (c : ascii) : bool :=
  Ascii.eqb c " "%char || Ascii.eqb c tab_char.

(** [text.split('\n')] *)
Fixpoint split_lines (s : string) : list string :=
  match s with
  | EmptyString => [""]
  | String c r =>
      if Ascii.eqb c newline_char then "" :: split_lines r
      else match split_lines r with
           | x :: xs => String c x :: xs
           | [] => [String c ""]
           end
  end.

Fixpoint all_space_or_tab (s : string) : bool :=
  match s with
  | EmptyString => true
  | String c r => is_space_or_tab c && all_space_or_tab r
  end.

(** A line of blanks and tabs only is emptied first. *)
Definition normalize_blank (l : string) : string :=
  if all_space_or_tab l then "" else l.

Fixpoint leading_ws (l : string) : string :=
  match l with
  | EmptyString => ""
  | String c r => if is_space_or_tab c then String c (leading_ws r) else ""
  end.

Fixpoint common_prefix (a b : string) : string :=
  match a, b with
  | String x a', String y b' => if Ascii.eqb x y then String x (common_prefix a' b') else ""
  | _, _ => ""
  end.

(** One round of the loop that narrows the margin by the indentation of
    the next line that is not empty. *)
Definition update_margin (margin : option string) (l : string) : option string :=
  if String.eqb l "" then margin
  else
    let indent := leading_ws l in
    match margin with
    | None => Some indent
    | Some m =>
        if String.prefix m indent then Some m
        else if String.prefix indent m then Some indent
        else Some (common_prefix m indent)
    end.

Fixpoint drop_prefix (m l : string) : option string :=
  match m, l with
  | EmptyString, _ => Some l
  | String x m', String y l' => if Ascii.eqb x y then drop_prefix m' l' else None
  | String _ _, EmptyString => None
  end.

Definition strip_margin (m l : string) : string :=
  match drop_prefix m l with
  | Some r => r
  | None => l
  end.

Definition dedent (text : string) : string :=
  let lines := map normalize_blank (split_lines text) in
  match fold_left update_margin lines None with
  | Some m => join nl (map (strip_margin m) lines)
  | None => join nl lines
  end.

(** ** Host preparation ([_hostprep.py]) *)

Record TestrunTempFiles : Type := {
  run_config_file : path;
  testrun_tmp_dir : path;
  unbuilt_dir : path
}.

(** The attributes of a [TestSpecification] that the preparation reads. *)
Record TestSpecification `{Backends} : Type := {
  pre_upgrade_scripts : list string;
  post_upgrade_tests : list string;
  provisioning : ProvisionSpecification
}.

Definition _cleanup_dir (dir : path) : M unit := rmtree dir.

(** The text [dedent] is applied to, with the storage location filled in. *)
Definition config_template (location : string) : string :=
  "            # Auto Upgrade Test Configuration" ++ nl ++
  "            PRE_TEST_LOCATION=" ++ dq ++ location ++ "/pre_scripts" ++ dq ++ nl ++
  "            POST_TEST_LOCATION=" ++ dq ++ location ++ "/post_scripts" ++ dq ++ nl ++
  "        ".

Definition _write_run_config `{Backends} `{HostEnv}
    (testsuite : TestSpecification) (temp_dir : path) (rnd : string) : M path :=
  run_config_file <~ mkstemp temp_dir rnd ;;
  open_truncate run_config_file ;;;
  let pre_tests := join " " (pre_upgrade_scripts testsuite) in
  let post_tests := join " " (post_upgrade_tests testsuite) in
  let config_string := dedent (config_template testbed_location) in
  file_write run_config_file config_string ;;;
  file_write run_config_file ("PRE_TESTS_TO_RUN=" ++ dq ++ pre_tests ++ dq ++ nl) ;;;
  file_write run_config_file ("POST_TESTS_TO_RUN=" ++ dq ++ post_tests ++ dq ++ nl) ;;;
  initial <~ lift (initial_state (provisioning testsuite)) ;;
  file_write run_config_file ("INITIAL_SYSTEM_STATE=" ++ dq ++ py_str initial ++ dq ++ nl) ;;;
  final <~ lift (final_state (provisioning testsuite)) ;;
  file_write run_config_file ("POST_SYSTEM_STATE=" ++ dq ++ py_str final ++ dq ++ nl) ;;;
  retM run_config_file.

(** The inner [_copy_file(dest, name)] of [_create_autopkg_details]. *)
Definition _copy_file `{HostEnv} (dest : path) (name : string) : M unit :=
  let src := path_join source_dir name in
  let dst := path_join dest name in
  copyfile src dst.

Definition _create_autopkg_details `{HostEnv} (temp_dir : path) : M path :=
  let dir_tree := path_join temp_dir "debian" in
  let test_dir_tree := path_join dir_tree "tests" in
  makedirs test_dir_tree ;;;
  _copy_file test_dir_tree "control" ;;;
  _copy_file test_dir_tree "upgrade" ;;;
  _copy_file dir_tree "changelog" ;;;
  let dummy_control := path_join dir_tree "control" in
  open_append_close dummy_control ;;;
  retM dir_tree.

(** The statements of the [try] block after [mkdtemp], up to the value
    handed to [yield]. *)
Definition setup_steps `{Backends} `{HostEnv}
    (testsuite : TestSpecification) (temp_dir : path) (rnd : string) : M TestrunTempFiles :=
  run_config_path <~ _write_run_config testsuite temp_dir rnd ;;
  unbuilt_dir <~ _create_autopkg_details temp_dir ;;
  retM {| run_config_file := run_config_path;
          unbuilt_dir := temp_dir;
          testrun_tmp_dir := temp_dir |}.

(** The generator [prepare_test_environment] run to its [yield]: the value
    yielded and the local [temp_dir] it keeps.  When a statement raises, the
    [finally] clause runs at once; it finds [temp_dir] unbound when
    [mkdtemp] itself raised. *)
Definition prepare_test_environment_yield `{Backends} `{HostEnv}
    (testsuite : TestSpecification) (rnd_dir rnd_file : string)
  : M (TestrunTempFiles * path) := fun σ =>
  match mkdtemp rnd_dir σ with
  | (Raise _, σ1) => (Raise UnboundLocalError, σ1)
  | (Ok temp_dir, σ1) =>
      match setup_steps testsuite temp_dir rnd_file σ1 with
      | (Ok files, σ2) => (Ok (files, temp_dir), σ2)
      | (Raise e, σ2) =>
          match _cleanup_dir temp_dir σ2 with
          | (Ok _, σ3) => (Raise e, σ3)
          | (Raise e', σ3) => (Raise e', σ3)
          end
      end
  end.

(** The generator resumed after its [yield], [outcome] being how the scope
    ended: the [finally] clause runs and the outcome stands unless the
    clean-up raises. *)
Definition prepare_test_environment_resume {A : Type}
    (temp_dir : path) (outcome : result A) : M A := fun σ =>
  match _cleanup_dir temp_dir σ with
  | (Ok _, σ') => (outcome, σ')
  | (Raise e, σ') => (Raise e, σ')
  end.

(** [with prepare_test_environment(testsuite) as files: scope(files)] *)
Definition prepare_test_environment `{Backends} `{HostEnv} {A : Type}
    (testsuite : TestSpecification) (rnd_dir rnd_file : string)
    (scope : TestrunTempFiles -> M A) : M A := fun σ =>
  match prepare_test_environment_yield testsuite rnd_dir rnd_file σ with
  | (Raise e, σ1) => (Raise e, σ1)
  | (Ok (files, temp_dir), σ1) =>
      let '(outcome, σ2) := scope files σ1 in
      prepare_test_environment_resume temp_dir outcome σ2
  end.

(** ** Sourcing a run configuration *)

Definition backquote_char : ascii := "096"%char.

Definition is_blank (c : ascii) : bool :=
  Ascii.eqb c " "%char || Ascii.eqb c tab_char.

Definition is_name_start (c : ascii) : bool :=
  let n := N_of_ascii c in
  ((65 <=? n)%N && (n <=? 90)%N) || ((97 <=? n)%N && (n <=? 122)%N) || Ascii.eqb c "_"%char.

Definition is_name_char (c : ascii) : bool :=
  let n := N_of_ascii c in
  is_name_start c || ((48 <=? n)%N && (n <=? 57)%N).

(** The characters that keep a meaning of their own between double
    quotes: the quote, the dollar sign, the backquote and the backslash. *)
Definition sh_special (c : ascii) : bool :=
  Ascii.eqb c dquote_char || Ascii.eqb c "$"%char
  || Ascii.eqb c backquote_char || Ascii.eqb c backslash_char.

(** The operator characters, and the tilde, that end or change an
    unquoted word. *)
Definition sh_operator (c : ascii) : bool :=
  str_contains_char c ";&|<>()~".

(** Where the shell is in the text: between words, in a comment, in the
    name of an assignment word, or in its value (unquoted, after an unquoted
    backslash, between double quotes, after a backslash between double
    quotes, between single quotes). *)
Inductive sh_mode : Type :=
  | ShStart
  | ShComment
  | ShName (name : string)
  | ShValue (name value : string)
  | ShValueEsc (name value : string)
  | ShDQ (name value : string)
  | ShDQEsc (name value : string)
  | ShSQ (name value : string).

Definition snoc_char (s : string) (c : ascii) : string := s ++ String c "".

(** One character read in mode [m], [done] being the assignments made so
    far; [None] when the text asks for more than comments and assignment
    words: a command, an operator, an expansion. *)
Definition sh_step (m : sh_mode) (done : list (string * string)) (c : ascii)
  : option (sh_mode * list (string * string)) :=
  match m with
  | ShStart =>
      if is_blank c || Ascii.eqb c newline_char then Some (ShStart, done)
      else if Ascii.eqb c "#"%char then Some (ShComment, done)
      else if is_name_start c then Some (ShName (String c ""), done)
      else None
  | ShComment =>
      if Ascii.eqb c newline_char then Some (ShStart, done) else Some (ShComment, done)
  | ShName n =>
      if is_name_char c then Some (ShName (snoc_char n c), done)
      else if Ascii.eqb c "="%char then Some (ShValue n "", done)
      else None
  | ShValue n v =>
      if is_blank c || Ascii.eqb c newline_char then Some (ShStart, (done ++ [(n, v)])%list)
      else if Ascii.eqb c dquote_char then Some (ShDQ n v, done)
      else if Ascii.eqb c squote_char then Some (ShSQ n v, done)
      else if Ascii.eqb c backslash_char then Some (ShValueEsc n v, done)
      else if Ascii.eqb c "$"%char || Ascii.eqb c backquote_char || sh_operator c then None
      else Some (ShValue n (snoc_char v c), done)
  | ShValueEsc n v =>
      if Ascii.eqb c newline_char then Some (ShValue n v, done)
      else Some (ShValue n (snoc_char v c), done)
  | ShDQ n v =>
      if Ascii.eqb c dquote_char then Some (ShValue n v, done)
      else if Ascii.eqb c backslash_char then Some (ShDQEsc n v, done)
      else if Ascii.eqb c "$"%char || Ascii.eqb c backquote_char then None
      else Some (ShDQ n (snoc_char v c), done)
  | ShDQEsc n v =>
      if sh_special c then Some (ShDQ n (snoc_char v c), done)
      else if Ascii.eqb c newline_char then Some (ShDQ n v, done)
      else Some (ShDQ n (snoc_char (snoc_char v backslash_char) c), done)
  | ShSQ n v =>
      if Ascii.eqb c squote_char then Some (ShValue n v, done)
      else Some (ShSQ n (snoc_char v c), done)
  end.

(** The end of the text: a value under way is assigned, an open quote or a
    lone name is an error. *)
Definition sh_end (m : sh_mode) (done : list (string * string))
  : option (list (string * string)) :=
  match m with
  | ShStart | ShComment => Some done
  | ShValue n v => Some (done ++ [(n, v)])%list
  | _ => None
  end.

Fixpoint sh_scan (m : sh_mode) (done : list (string * string)) (text : string)
  : option (list (string * string)) :=
  match text with
  | EmptyString => sh_end m done
  | String c r =>
      match sh_step m done c with
      | Some (m', done') => sh_scan m' done' r
      | None => None
      end
  end.

(** The assignments a shell makes, in order, when it sources [text], for
    a text of comments and assignment words. *)
Definition sh_source (text : string) : option (list (string * string)) :=
  sh_scan ShStart [] text.

(** A value that stands for itself between double quotes. *)
Fixpoint sh_plain (s : string) : bool :=
  match s with
  | EmptyString => true
  | String c r => negb (sh_special c) && sh_plain r
  end.

(** The name of a shell variable. *)
Definition sh_name (s : string) : bool :=
  match s with
  | EmptyString => false
  | String c r => is_name_start c && forallb is_name_char (list_ascii_of_string r)
  end.

(** The variable names of a run configuration. *)
Definition run_config_names : list string :=
  ["PRE_TEST_LOCATION"; "POST_TEST_LOCATION"; "PRE_TESTS_TO_RUN";
   "POST_TESTS_TO_RUN"; "INITIAL_SYSTEM_STATE"; "POST_SYSTEM_STATE"].

(** ** Predicates the properties are stated with *)

Definition slash_free (s : string) : Prop := str_contains_char slash_char s = false.
Definition no_newline (s : string) : Prop := str_contains_char newline_char s = false.

(** A line [name="value"] of a run configuration. *)
Definition assignment (name value : string) : string :=
  name ++ "=" ++ dq ++ value ++ dq.

(** The run configuration, line by line. *)
Definition run_config_text (location pre_tests post_tests initial final : string) : string :=
  "# Auto Upgrade Test Configuration" ++ nl ++
  assignment "PRE_TEST_LOCATION" (location ++ "/pre_scripts") ++ nl ++
  assignment "POST_TEST_LOCATION" (location ++ "/post_scripts") ++ nl ++
  assignment "PRE_TESTS_TO_RUN" pre_tests ++ nl ++
  assignment "POST_TESTS_TO_RUN" post_tests ++ nl ++
  assignment "INITIAL_SYSTEM_STATE" initial ++ nl ++
  assignment "POST_SYSTEM_STATE" final ++ nl.

(** [a] put before the first of the lines [ls]. *)
Definition prepend_first (a : string) (ls : list string) : list string :=
  match ls with
  | x :: xs => (a ++ x) :: xs
  | [] => [a]
  end.

(** An operation under which every directory stays a directory. *)
Definition keeps_dirs {A : Type} (m : M A) : Prop :=
  forall (σ : gmap string node) (d : path), σ !! d = Some Dir -> (m σ).2 !! d = Some Dir.

(** An operation that, run with the directory [d] in place, changes
    nothing outside the tree of [d]. *)
Definition writes_within (d : path) {A : Type} (m : M A) : Prop :=
  forall (σ : gmap string node) (p : path),
    σ !! d = Some Dir -> in_tree d p = false -> (m σ).2 !! p = σ !! p.

(** ** Sample collaborators and inputs, for checking the definitions *)

(** Backends that accept every state. *)
Definition accepting_backends : Backends := {|
  Backend := unit;
  LXCBackend := fun _ _ => Ok tt;
  DeviceBackend := fun _ _ _ _ => Ok tt
|}.

Definition sample_host : HostEnv := {|
  tempdir := "/tmp";
  testbed_location := "/var/tmp/ubuntu-upgrade-testing";
  source_dir := "/usr/lib/upgrade_testing/data"
|}.

Definition sample_fs : gmap string node :=
  <["/tmp" := Dir]>
  (<["/usr/lib/upgrade_testing/data/control" := File "Tests: upgrade"]>
  (<["/usr/lib/upgrade_testing/data/upgrade" := File "#!/bin/sh"]>
  (<["/usr/lib/upgrade_testing/data/changelog" := File "upgrade-testing (1)"]> ∅))).

Definition sample_lxc_config : pyval :=
  PDict [("backend", PStr "lxc"); ("releases", PList [PStr "14.04"; PStr "16.04"])].

Definition sample_device_config : pyval :=
  PDict [("backend", PStr "device"); ("channel", PStr "stable");
         ("revisions", PList [PInt 1; PInt 2; PInt 3])].

Definition sample_testsuite : @TestSpecification accepting_backends := {|
  pre_upgrade_scripts := ["a.sh"; "b.sh"];
  post_upgrade_tests := ["t1"];
  provisioning :=
    LXCSpec {| lxc_distribution := PStr "ubuntu";
               lxc_releases := PList [PStr "14.04"; PStr "16.04"];
               lxc_backend := (tt : @Backend accepting_backends) |}
|}.

(** A scope that raises at once. *)
Definition failing_scope (files : TestrunTempFiles) : M unit := raise (ScopeError 1).

(** A test specification with a script whose name holds a line break. *)
Definition newline_testsuite : @TestSpecification accepting_backends := {|
  pre_upgrade_scripts := ["x" ++ dq ++ nl ++ "EXTRA=" ++ dq ++ "y"];
  post_upgrade_tests := ["t1"];
  provisioning :=
    LXCSpec {| lxc_distribution := PStr "ubuntu";
               lxc_releases := PList [PStr "14.04"; PStr "16.04"];
               lxc_backend := (tt : @Backend accepting_backends) |}
|}.

(** Backends that refuse every state. *)
Definition rejecting_backends : Backends := {|
  Backend := unit;
  LXCBackend := fun _ _ => Raise (BackendError 1);
  DeviceBackend := fun _ _ _ _ => Raise (BackendError 2)
|}.

(** A scope that removes the temporary directory itself. *)
Definition removing_scope (files : TestrunTempFiles) : M unit :=
  rmtree (testrun_tmp_dir files).

(** A host on which nothing exists, not even the directory for temporary
    files. *)
Definition empty_fs : gmap string node := ∅.

(** A test specification with a script whose name holds a double quote. *)
Definition quote_testsuite : @TestSpecification accepting_backends := {|
  pre_upgrade_scripts := ["a" ++ dq ++ " EXTRA=" ++ dq ++ "b"];
  post_upgrade_tests := ["t1"];
  provisioning :=
    LXCSpec {| lxc_distribution := PStr "ubuntu";
               lxc_releases := PList [PStr "14.04"; PStr "16.04"];
               lxc_backend := (tt : @Backend accepting_backends) |}
|}.


(** * Properties *)

(** ** Sequences *)

Ltac run_result :=
  unfold mbind, result_bind, mret, result_ret, fmap, result_fmap in *; simpl in *.

Lemma seq_index_nil {A : Type} (i : Z) : seq_index (@nil A) i = Raise IndexError.
Proof.
  unfold seq_index. simpl length.
  destruct (i <? 0);
    match goal with |- (if ?b then _ else _) = _ => destruct b eqn:E end;
    try reflexivity;
    apply andb_true_iff in E as [E1 E2];
    apply Z.leb_le in E1; apply Z.ltb_lt in E2; lia.
Qed.

Lemma seq_index_first {A : Type} (x : A) (l : list A) : seq_index (x :: l) 0 = Ok x.
Proof.
  unfold seq_index. simpl (0 <? 0). cbv iota.
  replace (0 <=? 0) with true by reflexivity.
  replace (0 <? Z.of_nat (length (x :: l))) with true
    by (symmetry; apply Z.ltb_lt; simpl length; lia).
  reflexivity.
Qed.

Lemma nth_error_last {A : Type} (l : list A) (y : A) :
  last l = Some y -> nth_error l (Nat.pred (length l)) = Some y.
Proof.
  induction l as [|a l IH]; [discriminate |].
  destruct l as [|b l]; simpl in *; [congruence | auto].
Qed.

Lemma seq_index_last {A : Type} (l : list A) (y : A) :
  last l = Some y -> seq_index l (-1) = Ok y.
Proof.
  intros Hl. unfold seq_index.
  assert (Hn : (0 < length l)%nat) by (destruct l; [discriminate | simpl; lia]).
  change (-1 <? 0) with true. cbv iota zeta.
  assert (E1 : (0 <=? Z.of_nat (length l) + -1) = true) by (apply Z.leb_le; lia).
  assert (E2 : (Z.of_nat (length l) + -1 <? Z.of_nat (length l)) = true)
    by (apply Z.ltb_lt; lia).
  assert (E3 : Z.to_nat (Z.of_nat (length l) + -1) = Nat.pred (length l)) by lia.
  rewrite E1, E2, E3. simpl andb. cbv iota.
  rewrite (nth_error_last l y Hl). reflexivity.
Qed.

Lemma nonempty_head_last {A : Type} (l : list A) :
  l <> [] -> exists x y, head l = Some x /\ last l = Some y.
Proof.
  intros Hne. destruct l as [|a l]; [congruence |].
  exists a. destruct (last (a :: l)) as [y|] eqn:Hl; [eauto |].
  apply last_None in Hl. discriminate.
Qed.

Lemma head_map {A B : Type} (f : A -> B) (l : list A) : head (map f l) = f <$> head l.
Proof. destruct l; reflexivity. Qed.

Lemma last_map {A B : Type} (f : A -> B) (l : list A) : last (map f l) = f <$> last l.
Proof.
  induction l as [|a l IH]; [reflexivity |].
  destruct l as [|b l]; [reflexivity |]. exact IH.
Qed.

Lemma seq_index_ok_nonempty {A : Type} (l : list A) (i : Z) (x : A) :
  seq_index l i = Ok x -> l <> [].
Proof. intros Hx ->. rewrite seq_index_nil in Hx. discriminate. Qed.

(** ** The constructors, unfolded on a dict *)

Lemma lxc_init_dict `{Backends} (cfg : list (string * pyval)) (R : pyval) :
  dict_lookup "releases" cfg = Some R ->
  LXCProvisionSpecification_init (PDict cfg) =
    (initial ← lxc_initial_state R;
     backend ← LXCBackend initial (default (PStr "ubuntu") (dict_lookup "distribution" cfg));
     mret {| lxc_distribution := default (PStr "ubuntu") (dict_lookup "distribution" cfg);
             lxc_releases := R; lxc_backend := backend |}).
Proof.
  intros HR. unfold LXCProvisionSpecification_init, py_get, getitem_key.
  rewrite HR. destruct (dict_lookup "distribution" cfg); reflexivity.
Qed.

Lemma dev_init_dict `{Backends} (cfg : list (string * pyval)) (C V : pyval) :
  dict_lookup "channel" cfg = Some C ->
  dict_lookup "revisions" cfg = Some V ->
  DeviceProvisionSpecification_init (PDict cfg) =
    (initial ← dev_initial_state C V;
     backend ← DeviceBackend C initial
                 (default PNone (dict_lookup "password" cfg))
                 (default PNone (dict_lookup "serial" cfg));
     mret {| dev_channel := C; dev_revisions := V; dev_backend := backend |}).
Proof.
  intros HC HV.
  unfold DeviceProvisionSpecification_init, dev_required_fields, py_get, getitem_key.
  rewrite HC, HV.
  destruct (dict_lookup "serial" cfg), (dict_lookup "password" cfg); reflexivity.
Qed.

Lemma dev_init_missing `{Backends} (cfg : list (string * pyval)) :
  dict_lookup "channel" cfg = None \/ dict_lookup "revisions" cfg = None ->
  DeviceProvisionSpecification_init (PDict cfg) =
    Raise (ValueError ("Missing config detail: " ++
      py_repr (PStr (match dict_lookup "channel" cfg with
                       | Some _ => "revisions"
                       | None => "channel"
                       end)))).
Proof.
  intros Hmiss.
  unfold DeviceProvisionSpecification_init, dev_required_fields, getitem_key.
  destruct (dict_lookup "channel" cfg) as [c|] eqn:HC.
  - destruct Hmiss as [Hm|Hm]; [discriminate |]. rewrite Hm. reflexivity.
  - reflexivity.
Qed.

(** ** Device specifications *)

(** C1.  A Device specification built from a mapping with channel string
    [C] and a non-empty revisions list [V] has as [system_states] the list
    of the strings [C:V[i]], as [initial_state] the string [C:V[0]] and as
    [final_state] the string for the last revision; and it is built whenever
    the backend constructor accepts the initial state. *)
Theorem device_states `{Backends} (cfg : list (string * pyval)) (C : string) (V : list pyval) :
  dict_lookup "channel" cfg = Some (PStr C) ->
  dict_lookup "revisions" cfg = Some (PList V) ->
  V <> [] ->
  exists v0 vl,
    head V = Some v0 /\ last V = Some vl /\
    (forall b,
       DeviceBackend (PStr C) (PStr (C ++ ":" ++ py_str v0))
         (default PNone (dict_lookup "password" cfg))
         (default PNone (dict_lookup "serial" cfg)) = Ok b ->
       DeviceProvisionSpecification_init (PDict cfg) =
         Ok {| dev_channel := PStr C; dev_revisions := PList V; dev_backend := b |}) /\
    (forall spec,
       DeviceProvisionSpecification_init (PDict cfg) = Ok spec ->
       system_states spec = Ok (PList (map (fun r => PStr (C ++ ":" ++ py_str r)) V)) /\
       (forall (i : nat) r, V !! i = Some r ->
          map (fun r => PStr (C ++ ":" ++ py_str r)) V !! i = Some (PStr (C ++ ":" ++ py_str r))) /\
       initial_state spec = Ok (PStr (C ++ ":" ++ py_str v0)) /\
       final_state spec = Ok (PStr (C ++ ":" ++ py_str vl))).
Proof.
  intros HC HV Hne.
  destruct (nonempty_head_last V Hne) as (v0 & vl & Hh & Hl).
  exists v0, vl. split; [exact Hh |]. split; [exact Hl |].
  pose proof (dev_init_dict cfg _ _ HC HV) as Hinit.
  assert (H0 : dev_initial_state (PStr C) (PList V) = Ok (PStr (C ++ ":" ++ py_str v0))).
  { destruct V as [|a V']; [discriminate |]. injection Hh as ->.
    unfold dev_initial_state, getitem_idx. rewrite seq_index_first. reflexivity. }
  rewrite H0 in Hinit. split.
  - intros b Hb. rewrite Hinit. run_result. rewrite Hb. reflexivity.
  - intros spec Hspec. rewrite Hinit in Hspec. run_result.
    destruct (DeviceBackend _ _ _ _) as [b|e]; [| discriminate].
    injection Hspec as <-. simpl.
    split; [reflexivity |]. split.
    + intros i r Hi. rewrite list_lookup_fmap, Hi. reflexivity.
    + split; [exact H0 |].
      unfold dev_final_state, getitem_idx. rewrite (seq_index_last V vl Hl). reflexivity.
Qed.

Lemma device_states_witness :
  exists spec,
    DeviceProvisionSpecification_init (H := accepting_backends) sample_device_config = Ok spec /\
    system_states spec = Ok (PList [PStr "stable:1"; PStr "stable:2"; PStr "stable:3"]) /\
    initial_state spec = Ok (PStr "stable:1") /\
    final_state spec = Ok (PStr "stable:3").
Proof.
  destruct (device_states (H := accepting_backends)
              [("backend", PStr "device"); ("channel", PStr "stable");
               ("revisions", PList [PInt 1; PInt 2; PInt 3])]
              "stable" [PInt 1; PInt 2; PInt 3] eq_refl eq_refl ltac:(discriminate))
    as (v0 & vl & Hh & Hl & Hbuilt & Hprops).
  injection Hh as <-. injection Hl as <-.
  eexists. split; [exact (Hbuilt tt eq_refl) |].
  destruct (Hprops _ (Hbuilt tt eq_refl)) as (Hs & _ & Hi & Hf).
  exact (conj Hs (conj Hi Hf)).
Defined.

(** ** Container specifications *)

(** C2.  A Container specification built from a mapping with a non-empty
    releases list [R] has [R] itself as [system_states], [R[0]] as
    [initial_state] and the last element of [R] as [final_state]; and it is
    built whenever the backend constructor accepts the initial state. *)
Theorem lxc_states `{Backends} (cfg : list (string * pyval)) (R : list pyval) :
  dict_lookup "releases" cfg = Some (PList R) ->
  R <> [] ->
  exists r0 rl,
    head R = Some r0 /\ last R = Some rl /\
    (forall b,
       LXCBackend r0 (default (PStr "ubuntu") (dict_lookup "distribution" cfg)) = Ok b ->
       LXCProvisionSpecification_init (PDict cfg) =
         Ok {| lxc_distribution := default (PStr "ubuntu") (dict_lookup "distribution" cfg);
               lxc_releases := PList R; lxc_backend := b |}) /\
    (forall spec,
       LXCProvisionSpecification_init (PDict cfg) = Ok spec ->
       system_states spec = Ok (PList R) /\
       initial_state spec = Ok r0 /\
       final_state spec = Ok rl).
Proof.
  intros HR Hne.
  destruct (nonempty_head_last R Hne) as (r0 & rl & Hh & Hl).
  exists r0, rl. split; [exact Hh |]. split; [exact Hl |].
  pose proof (lxc_init_dict cfg _ HR) as Hinit.
  assert (H0 : lxc_initial_state (PList R) = Ok r0).
  { destruct R as [|a R']; [discriminate |]. injection Hh as ->.
    unfold lxc_initial_state, getitem_idx. apply seq_index_first. }
  rewrite H0 in Hinit. split.
  - intros b Hb. rewrite Hinit. run_result. rewrite Hb. reflexivity.
  - intros spec Hspec. rewrite Hinit in Hspec. run_result.
    destruct (LXCBackend _ _) as [b|e]; [| discriminate].
    injection Hspec as <-. simpl.
    split; [reflexivity |]. split; [exact H0 |].
    unfold lxc_final_state, getitem_idx. apply seq_index_last, Hl.
Qed.

Lemma lxc_states_witness :
  exists spec,
    LXCProvisionSpecification_init (H := accepting_backends) sample_lxc_config = Ok spec /\
    system_states spec = Ok (PList [PStr "14.04"; PStr "16.04"]) /\
    initial_state spec = Ok (PStr "14.04") /\
    final_state spec = Ok (PStr "16.04").
Proof.
  destruct (lxc_states (H := accepting_backends)
              [("backend", PStr "lxc"); ("releases", PList [PStr "14.04"; PStr "16.04"])]
              [PStr "14.04"; PStr "16.04"] eq_refl ltac:(discriminate))
    as (r0 & rl & Hh & Hl & Hbuilt & Hprops).
  injection Hh as <-. injection Hl as <-.
  eexists. split; [exact (Hbuilt tt eq_refl) |].
  exact (Hprops _ (Hbuilt tt eq_refl)).
Defined.

(** ** Missing fields *)

(** C3.  Building a Device specification from a mapping that lacks
    [channel] or [revisions] raises a [ValueError], not a [KeyError]; its
    message is [Missing config detail: ] followed by the quoted name of a
    key the mapping lacks, which is [channel] whenever [channel] is
    absent. *)
Theorem device_missing_field `{Backends} (cfg : list (string * pyval)) :
  dict_lookup "channel" cfg = None \/ dict_lookup "revisions" cfg = None ->
  exists k,
    DeviceProvisionSpecification_init (PDict cfg) =
      Raise (ValueError ("Missing config detail: '" ++ k ++ "'")) /\
    dict_lookup k cfg = None /\
    (k = "channel" \/ k = "revisions") /\
    (dict_lookup "channel" cfg = None -> k = "channel").
Proof.
  intros Hmiss. rewrite (dev_init_missing cfg Hmiss).
  destruct (dict_lookup "channel" cfg) as [c|] eqn:HC.
  - exists "revisions". split; [reflexivity |].
    destruct Hmiss as [?|Hm]; [discriminate |]. repeat split; auto. discriminate.
  - exists "channel". repeat split; auto.
Qed.

Lemma device_missing_field_witness :
  exists k,
    DeviceProvisionSpecification_init (H := accepting_backends)
      (PDict [("backend", PStr "device"); ("revisions", PList [PInt 1])]) =
      Raise (ValueError ("Missing config detail: '" ++ k ++ "'")) /\
    dict_lookup k [("backend", PStr "device"); ("revisions", PList [PInt 1])] = None /\
    (k = "channel" \/ k = "revisions") /\
    (dict_lookup "channel" [("backend", PStr "device"); ("revisions", PList [PInt 1])] = None ->
     k = "channel").
Proof.
  apply (device_missing_field (H := accepting_backends)
           [("backend", PStr "device"); ("revisions", PList [PInt 1])]).
  left. reflexivity.
Defined.

(** ** Specifications without states *)

(** C4.  A mapping whose releases list (Container) or revisions list
    (Device) is empty is rejected by the constructor; and a specification
    built from a mapping that holds such a list has a non-empty
    [system_states], of which [initial_state] is the first element and
    [final_state] the last. *)
Theorem empty_states_rejected `{Backends} (cfg : list (string * pyval)) :
  (dict_lookup "releases" cfg = Some (PList []) ->
   LXCProvisionSpecification_init (PDict cfg) = Raise IndexError) /\
  (dict_lookup "revisions" cfg = Some (PList []) ->
   exists e, DeviceProvisionSpecification_init (PDict cfg) = Raise e) /\
  (forall R spec,
     dict_lookup "releases" cfg = Some (PList R) ->
     LXCProvisionSpecification_init (PDict cfg) = Ok spec ->
     exists S x y,
       system_states spec = Ok (PList S) /\ head S = Some x /\ last S = Some y /\
       initial_state spec = Ok x /\ final_state spec = Ok y) /\
  (forall V spec,
     dict_lookup "revisions" cfg = Some (PList V) ->
     DeviceProvisionSpecification_init (PDict cfg) = Ok spec ->
     exists S x y,
       system_states spec = Ok (PList S) /\ head S = Some x /\ last S = Some y /\
       initial_state spec = Ok x /\ final_state spec = Ok y).
Proof.
  split; [| split; [| split]].
  - intros HR. rewrite (lxc_init_dict cfg _ HR).
    unfold lxc_initial_state, getitem_idx. rewrite seq_index_nil. reflexivity.
  - intros HV. destruct (dict_lookup "channel" cfg) as [c|] eqn:HC.
    + exists IndexError. rewrite (dev_init_dict cfg _ _ HC HV).
      unfold dev_initial_state, getitem_idx. rewrite seq_index_nil. reflexivity.
    + eexists. apply dev_init_missing. left. exact HC.
  - intros R spec HR Hspec. rewrite (lxc_init_dict cfg _ HR) in Hspec.
    destruct (lxc_initial_state (PList R)) as [x|e] eqn:H0; [| discriminate].
    run_result.
    destruct (LXCBackend _ _) as [b|e]; [| discriminate].
    injection Hspec as <-. simpl.
    unfold lxc_initial_state, getitem_idx in H0.
    pose proof (seq_index_ok_nonempty _ _ _ H0) as Hne.
    destruct (nonempty_head_last R Hne) as (r0 & rl & Hh & Hl).
    exists R, r0, rl. split; [reflexivity |]. split; [exact Hh |]. split; [exact Hl |].
    split.
    + destruct R as [|a R']; [discriminate |]. injection Hh as ->.
      unfold lxc_initial_state, getitem_idx. apply seq_index_first.
    + unfold lxc_final_state, getitem_idx. apply seq_index_last, Hl.
  - intros V spec HV Hspec.
    destruct (dict_lookup "channel" cfg) as [c|] eqn:HC.
    2:{ rewrite (dev_init_missing cfg (or_introl HC)) in Hspec. discriminate. }
    rewrite (dev_init_dict cfg _ _ HC HV) in Hspec.
    destruct (dev_initial_state c (PList V)) as [x|e] eqn:H0; [| discriminate].
    run_result.
    destruct (DeviceBackend _ _ _ _) as [b|e]; [| discriminate].
    injection Hspec as <-. simpl.
    unfold dev_initial_state, getitem_idx in H0. run_result.
    destruct (seq_index V 0) as [v|e] eqn:Hv; [| discriminate].
    pose proof (seq_index_ok_nonempty _ _ _ Hv) as Hne.
    destruct (nonempty_head_last V Hne) as (v0 & vl & Hh & Hl).
    exists (map (_construct_state_string c) V),
      (_construct_state_string c v0), (_construct_state_string c vl).
    split; [reflexivity |].
    split; [rewrite head_map, Hh; reflexivity |].
    split; [rewrite last_map, Hl; reflexivity |].
    split.
    + destruct V as [|a V']; [discriminate |]. injection Hh as ->.
      unfold dev_initial_state, getitem_idx. rewrite seq_index_first. reflexivity.
    + unfold dev_final_state, getitem_idx. rewrite (seq_index_last V vl Hl). reflexivity.
Qed.

Lemma empty_states_rejected_witness :
  LXCProvisionSpecification_init (H := accepting_backends)
    (PDict [("backend", PStr "lxc"); ("releases", PList [])]) = Raise IndexError /\
  (exists e, DeviceProvisionSpecification_init (H := accepting_backends)
     (PDict [("channel", PStr "stable"); ("revisions", PList [])]) = Raise e) /\
  (exists spec S x y,
     LXCProvisionSpecification_init (H := accepting_backends) sample_lxc_config = Ok spec /\
     system_states spec = Ok (PList S) /\ head S = Some x /\ last S = Some y /\
     initial_state spec = Ok x /\ final_state spec = Ok y) /\
  (exists spec S x y,
     DeviceProvisionSpecification_init (H := accepting_backends) sample_device_config = Ok spec /\
     system_states spec = Ok (PList S) /\ head S = Some x /\ last S = Some y /\
     initial_state spec = Ok x /\ final_state spec = Ok y).
Proof.
  split; [| split; [| split]].
  - exact (proj1 (empty_states_rejected (H := accepting_backends)
                    [("backend", PStr "lxc"); ("releases", PList [])]) eq_refl).
  - exact (proj1 (proj2 (empty_states_rejected (H := accepting_backends)
                    [("channel", PStr "stable"); ("revisions", PList [])])) eq_refl).
  - eexists.
    destruct (proj1 (proj2 (proj2 (empty_states_rejected (H := accepting_backends)
                [("backend", PStr "lxc"); ("releases", PList [PStr "14.04"; PStr "16.04"])])))
                _ _ eq_refl eq_refl) as (S & x & y & HS).
    exists S, x, y. split; [reflexivity | exact HS].
  - eexists.
    destruct (proj2 (proj2 (proj2 (empty_states_rejected (H := accepting_backends)
                [("backend", PStr "device"); ("channel", PStr "stable");
                 ("revisions", PList [PInt 1; PInt 2; PInt 3])])))
                _ _ eq_refl eq_refl) as (S & x & y & HS).
    exists S, x, y. split; [reflexivity | exact HS].
Defined.

(** ** The factory *)

Lemma spec_type_unknown (name : string) :
  name <> "lxc" -> name <> "device" ->
  get_specification_type (PStr name) = Raise (KeyError (PStr name)).
Proof.
  intros Hl Hd. unfold get_specification_type.
  destruct (String.eqb_spec name "lxc"); [contradiction |].
  destruct (String.eqb_spec name "device"); [contradiction |].
  reflexivity.
Qed.

(** C5.  For a backend name other than [lxc] and [device], both
    [from_provisionspec] and [from_testspec] raise the [KeyError] of the
    dispatch table, carrying that name; no [ValueError] takes its place. *)
Theorem unknown_backend_key_error `{Backends}
    (name : string) (prov top : list (string * pyval)) :
  name <> "lxc" -> name <> "device" ->
  dict_lookup "backend" prov = Some (PStr name) ->
  dict_lookup "provisioning" top = Some (PDict prov) ->
  from_provisionspec (PDict prov) = Raise (KeyError (PStr name)) /\
  from_testspec (PDict top) = Raise (KeyError (PStr name)).
Proof.
  intros Hl Hd Hb Hp. unfold from_provisionspec, from_testspec, getitem_key.
  rewrite Hp. cbv beta iota delta [mbind result_bind].
  rewrite Hb. cbv beta iota delta [mbind result_bind].
  rewrite (spec_type_unknown name Hl Hd). split; reflexivity.
Qed.

Lemma unknown_backend_key_error_witness :
  from_provisionspec (H := accepting_backends)
    (PDict [("backend", PStr "qemu"); ("releases", PList [PStr "14.04"])])
    = Raise (KeyError (PStr "qemu")) /\
  from_testspec (H := accepting_backends)
    (PDict [("provisioning", PDict [("backend", PStr "qemu"); ("releases", PList [PStr "14.04"])])])
    = Raise (KeyError (PStr "qemu")).
Proof.
  apply (unknown_backend_key_error (H := accepting_backends) "qemu"
           [("backend", PStr "qemu"); ("releases", PList [PStr "14.04"])]
           [("provisioning", PDict [("backend", PStr "qemu"); ("releases", PList [PStr "14.04"])])]).
  - discriminate.
  - discriminate.
  - reflexivity.
  - reflexivity.
Defined.

(** C6.  [from_testspec] reads the backend name in the [provisioning]
    sub-mapping and, for [lxc], builds the Container variant from that
    sub-mapping; without a [distribution] key the distribution is [ubuntu];
    and the mapping with releases 14.04 and 16.04 gives a specification with
    those as initial and final state, once the backend accepts it. *)
Theorem from_testspec_lxc `{Backends} (top prov : list (string * pyval)) :
  dict_lookup "provisioning" top = Some (PDict prov) ->
  dict_lookup "backend" prov = Some (PStr "lxc") ->
  from_testspec (PDict top) = LXCSpec <$> LXCProvisionSpecification_init (PDict prov) /\
  (dict_lookup "distribution" prov = None ->
   forall spec, LXCProvisionSpecification_init (PDict prov) = Ok spec ->
                lxc_distribution spec = PStr "ubuntu") /\
  (forall b, LXCBackend (PStr "14.04") (PStr "ubuntu") = Ok b ->
     exists spec,
       from_testspec
         (PDict [("provisioning",
                  PDict [("backend", PStr "lxc");
                         ("releases", PList [PStr "14.04"; PStr "16.04"])])])
       = Ok (LXCSpec spec) /\
       initial_state (LXCSpec spec) = Ok (PStr "14.04") /\
       final_state (LXCSpec spec) = Ok (PStr "16.04") /\
       lxc_distribution spec = PStr "ubuntu").
Proof.
  intros Hp Hb. split; [| split].
  - unfold from_testspec, getitem_key.
    rewrite Hp. cbv beta iota delta [mbind result_bind].
    rewrite Hb. reflexivity.
  - intros Hd spec Hspec.
    destruct (dict_lookup "releases" prov) as [R|] eqn:HR.
    + rewrite (lxc_init_dict prov R HR), Hd in Hspec.
      destruct (lxc_initial_state R) as [i|]; [| discriminate].
      run_result.
      destruct (LXCBackend i (PStr "ubuntu")) as [b|]; [| discriminate].
      injection Hspec as <-. reflexivity.
    + unfold LXCProvisionSpecification_init, py_get, getitem_key in Hspec.
      rewrite Hd, HR in Hspec. discriminate.
  - intros b Hbk.
    exists {| lxc_distribution := PStr "ubuntu";
              lxc_releases := PList [PStr "14.04"; PStr "16.04"]; lxc_backend := b |}.
    split; [| repeat split].
    unfold from_testspec, construct, LXCProvisionSpecification_init. run_result.
    change (lxc_initial_state (PList [PStr "14.04"; PStr "16.04"])) with (Ok (PStr "14.04")).
    simpl. rewrite Hbk. reflexivity.
Qed.

Lemma from_testspec_lxc_witness :
  exists spec,
    from_testspec (H := accepting_backends) (PDict [("provisioning", sample_lxc_config)])
    = Ok (LXCSpec spec) /\
    initial_state (LXCSpec spec) = Ok (PStr "14.04") /\
    final_state (LXCSpec spec) = Ok (PStr "16.04") /\
    lxc_distribution spec = PStr "ubuntu".
Proof.
  exact (proj2 (proj2 (from_testspec_lxc (H := accepting_backends)
                         [("provisioning", sample_lxc_config)]
                         [("backend", PStr "lxc");
                          ("releases", PList [PStr "14.04"; PStr "16.04"])]
                         eq_refl eq_refl)) tt eq_refl).
Defined.

(** C10.  For a mapping with a [provisioning] entry, [from_testspec] gives
    what [from_provisionspec] gives on that entry: the same specification, or
    the same exception. *)
Theorem from_testspec_from_provisionspec `{Backends}
    (m : list (string * pyval)) (p : pyval) :
  dict_lookup "provisioning" m = Some p ->
  from_testspec (PDict m) = from_provisionspec p.
Proof.
  intros Hp.
  assert (E : getitem_key (PDict m) "provisioning" = Ok p)
    by (unfold getitem_key; rewrite Hp; reflexivity).
  unfold from_testspec, from_provisionspec. rewrite E.
  cbv beta iota delta [mbind result_bind].
  destruct (getitem_key p "backend") as [name|]; [| reflexivity].
  destruct (get_specification_type name); reflexivity.
Qed.

Lemma from_testspec_from_provisionspec_witness :
  from_testspec (H := accepting_backends) (PDict [("provisioning", sample_device_config)])
  = from_provisionspec (H := accepting_backends) sample_device_config.
Proof.
  apply (from_testspec_from_provisionspec (H := accepting_backends)
           [("provisioning", sample_device_config)] sample_device_config).
  reflexivity.
Defined.

(** ** Strings *)

Local Arguments String.append : simpl nomatch.

Lemma append_assoc (a b c : string) : (a ++ b) ++ c = a ++ (b ++ c).
Proof. induction a as [|x a IH]; simpl; [reflexivity | rewrite IH; reflexivity]. Qed.

Lemma append_empty_r (a : string) : a ++ "" = a.
Proof. induction a as [|x a IH]; simpl; [reflexivity | rewrite IH; reflexivity]. Qed.

Lemma length_append (a b : string) :
  String.length (a ++ b) = (String.length a + String.length b)%nat.
Proof. induction a as [|x a IH]; simpl; [reflexivity | rewrite IH; reflexivity]. Qed.

Lemma prefix_append (a b : string) : String.prefix a (a ++ b) = true.
Proof.
  induction a as [|x a IH]; simpl; [destruct b; reflexivity |].
  destruct (ascii_dec x x); [exact IH | contradiction].
Qed.

Lemma str_contains_char_app (c : ascii) (a b : string) :
  str_contains_char c (a ++ b) = str_contains_char c a || str_contains_char c b.
Proof.
  induction a as [|x a IH]; simpl; [reflexivity |].
  destruct (Ascii.eqb x c); [reflexivity | exact IH].
Qed.

(** ** Paths *)

Lemma path_join_relative (a b : path) :
  starts_with_slash b = false -> a <> "" -> ends_with_slash a = false ->
  path_join a b = a ++ "/" ++ b.
Proof.
  intros Hb Ha He. unfold path_join. rewrite Hb, He.
  destruct (String.eqb_spec a ""); [contradiction | reflexivity].
Qed.

Lemma path_join_longer (a b : path) :
  starts_with_slash b = false -> b <> "" ->
  exists s, s <> "" /\ path_join a b = a ++ s.
Proof.
  intros Hb Hne. unfold path_join. rewrite Hb.
  destruct (String.eqb a "" || ends_with_slash a).
  - exists b. split; [exact Hne | reflexivity].
  - exists ("/" ++ b). split; [discriminate | reflexivity].
Qed.

Lemma path_join_prefix (a b : path) :
  a <> "" -> starts_with_slash b = false -> b <> "" ->
  String.prefix (dir_prefix a) (path_join a b) = true /\
  (String.length (dir_prefix a) < String.length (path_join a b))%nat.
Proof.
  intros Ha Hb Hne. unfold path_join, dir_prefix. rewrite Hb.
  assert (Hlen : (0 < String.length b)%nat) by (destruct b; [congruence | simpl; lia]).
  destruct (String.eqb_spec a "") as [->|_]; [congruence |]. cbn [orb].
  destruct (ends_with_slash a).
  - split; [apply prefix_append | rewrite length_append; lia].
  - split.
    + rewrite <- append_assoc. apply prefix_append.
    + rewrite !length_append. simpl. lia.
Qed.

Lemma path_join_neq (a b : path) :
  starts_with_slash b = false -> b <> "" -> path_join a b <> a.
Proof.
  intros Hb Hne Heq.
  destruct (path_join_longer a b Hb Hne) as (s & Hs & Hj).
  rewrite Hj in Heq. apply (f_equal String.length) in Heq.
  rewrite length_append in Heq. destruct s; [congruence | simpl in Heq; lia].
Qed.

Lemma path_join_nonempty (a b : path) : b <> "" -> path_join a b <> "".
Proof.
  intros Hne. unfold path_join.
  destruct (starts_with_slash b); [exact Hne |].
  destruct (String.eqb a "" || ends_with_slash a);
    destruct a; simpl; congruence.
Qed.

Lemma path_inside_join (a b : path) :
  a <> "" -> starts_with_slash b = false -> b <> "" ->
  path_inside a (path_join a b) = true.
Proof.
  intros Ha Hb Hne.
  destruct (path_join_prefix a b Ha Hb Hne) as [Hp Hl]. unfold path_inside. rewrite Hp. simpl.
  apply Nat.ltb_lt. exact Hl.
Qed.

Lemma in_tree_self (d : path) : in_tree d d = true.
Proof. unfold in_tree. rewrite String.eqb_refl. reflexivity. Qed.

Lemma in_tree_inside (d p : path) : path_inside d p = true -> in_tree d p = true.
Proof. unfold in_tree. intros ->. apply orb_true_r. Qed.

Lemma rsplit_slash_free (n : string) : slash_free n -> rsplit_slash n = None.
Proof.
  unfold slash_free. induction n as [|c n IH]; simpl; [reflexivity |].
  unfold is_slash. destruct (Ascii.eqb c slash_char); [discriminate |].
  intros Hn. rewrite (IH Hn). reflexivity.
Qed.

Lemma rsplit_slash_app (d n : string) :
  slash_free n -> rsplit_slash (d ++ "/" ++ n) = Some (d ++ "/", n).
Proof.
  intros Hn. induction d as [|c d IH]; simpl in *.
  - rewrite (rsplit_slash_free n Hn). reflexivity.
  - rewrite IH. reflexivity.
Qed.

Lemma append_cons (c : ascii) (a b : string) : String c a ++ b = String c (a ++ b).
Proof. reflexivity. Qed.

Lemma rstrip_slash_cons (c : ascii) (r : string) :
  rstrip_slash (String c r) =
  if is_slash c && String.eqb (rstrip_slash r) "" then "" else String c (rstrip_slash r).
Proof. reflexivity. Qed.

Lemma rstrip_slash_app (d : string) :
  d <> "" -> ends_with_slash d = false -> rstrip_slash (d ++ "/") = d.
Proof.
  induction d as [|c d IH]; [congruence |]. intros _ He.
  rewrite append_cons, rstrip_slash_cons.
  destruct d as [|c2 d2].
  - simpl in *. rewrite He. reflexivity.
  - rewrite IH by (auto; discriminate). simpl. rewrite andb_false_r. reflexivity.
Qed.

Lemma all_slashes_false (d : string) :
  d <> "" -> ends_with_slash d = false -> all_slashes d = false.
Proof.
  induction d as [|c d IH]; [congruence |]. intros _ He.
  destruct d as [|c2 d2]; simpl in *.
  - rewrite He. reflexivity.
  - rewrite IH by (auto; discriminate). apply andb_false_r.
Qed.

Lemma all_slashes_app_l (a b : string) : all_slashes a = false -> all_slashes (a ++ b) = false.
Proof.
  induction a as [|c a IH]; simpl; [discriminate |].
  destruct (is_slash c); simpl; auto.
Qed.

Lemma dirname_child (d n : string) :
  d <> "" -> ends_with_slash d = false -> slash_free n ->
  dirname (d ++ "/" ++ n) = d.
Proof.
  intros Hd He Hn. unfold dirname, path_split.
  rewrite (rsplit_slash_app d n Hn).
  rewrite (all_slashes_app_l d "/" (all_slashes_false d Hd He)).
  destruct (String.eqb_spec (d ++ "/") "") as [E|_].
  - destruct d; discriminate.
  - simpl. apply rstrip_slash_app; assumption.
Qed.

Lemma path_split_child (d n : string) :
  d <> "" -> ends_with_slash d = false -> slash_free n ->
  path_split (d ++ "/" ++ n) = (d, n).
Proof.
  intros Hd He Hn. pose proof (dirname_child d n Hd He Hn) as Hdir.
  unfold dirname, path_split in *. rewrite (rsplit_slash_app d n Hn) in *.
  simpl in *. rewrite Hdir. reflexivity.
Qed.

Lemma ends_with_slash_app (a b : string) :
  b <> "" -> ends_with_slash (a ++ b) = ends_with_slash b.
Proof.
  intros Hb. induction a as [|c a IH]; [reflexivity |].
  simpl. destruct (a ++ b) eqn:E; [| exact IH].
  destruct a; simpl in E; congruence.
Qed.

(** ** File-system operations *)

Lemma dir_ok_state (d : path) (σ : gmap string node) : (dir_ok d σ).2 = σ.
Proof. unfold dir_ok. repeat case_match; reflexivity. Qed.

Lemma dir_ok_dir (d : path) (σ : gmap string node) :
  σ !! d = Some Dir -> dir_ok d σ = (Ok tt, σ).
Proof. intros Hd. unfold dir_ok. rewrite Hd. destruct (all_slashes d); reflexivity. Qed.

Lemma keeps_dirs_ret {A : Type} (a : A) : keeps_dirs (retM a).
Proof. intros σ d Hd. exact Hd. Qed.

Lemma keeps_dirs_raise {A : Type} (e : exn) : keeps_dirs (raise (A := A) e).
Proof. intros σ d Hd. exact Hd. Qed.

Lemma keeps_dirs_lift {A : Type} (r : result A) : keeps_dirs (lift r).
Proof. intros σ d Hd. exact Hd. Qed.

Lemma keeps_dirs_bind {A B : Type} (m : M A) (f : A -> M B) :
  keeps_dirs m -> (forall a, keeps_dirs (f a)) -> keeps_dirs (bindM m f).
Proof.
  intros Hm Hf σ d Hd. unfold bindM. specialize (Hm σ d Hd).
  destruct (m σ) as [[a|e] σ']; simpl in *; [apply Hf; exact Hm | exact Hm].
Qed.

Lemma keeps_dirs_dir_ok (d : path) : keeps_dirs (dir_ok d).
Proof. intros σ d' Hd. rewrite dir_ok_state. exact Hd. Qed.

(** An operation that, where it writes, writes a file at a path that
    held no directory. *)
Lemma keeps_dirs_insert_file (σ : gmap string node) (p d : path) (c : string) :
  σ !! p <> Some Dir -> σ !! d = Some Dir -> <[p := File c]> σ !! d = Some Dir.
Proof.
  intros Hp Hd. destruct (decide (p = d)) as [->|Hne]; [contradiction |].
  rewrite lookup_insert_ne by exact Hne. exact Hd.
Qed.

Lemma keeps_dirs_insert_fresh (σ : gmap string node) (p d : path) (n : node) :
  σ !! p = None -> σ !! d = Some Dir -> <[p := n]> σ !! d = Some Dir.
Proof.
  intros Hp Hd. destruct (decide (p = d)) as [->|Hne]; [congruence |].
  rewrite lookup_insert_ne by exact Hne. exact Hd.
Qed.

Lemma keeps_dirs_mkdir (p : path) : keeps_dirs (mkdir p).
Proof.
  apply keeps_dirs_bind; [apply keeps_dirs_dir_ok |].
  intros _ σ d Hd. destruct (σ !! p) eqn:Hp; simpl; [exact Hd |].
  apply keeps_dirs_insert_fresh; assumption.
Qed.

Lemma keeps_dirs_makedirs_rec (fuel : nat) (name : path) : keeps_dirs (makedirs_rec fuel name).
Proof.
  revert name. induction fuel as [|fuel IH]; intros name; [apply keeps_dirs_raise |].
  intros σ d Hd. simpl.
  destruct (path_split name) as [head tail].
  destruct (if String.eqb tail "" then path_split head else (head, tail)) as [head' tail'].
  destruct (negb (String.eqb head' "") && negb (String.eqb tail' "")
            && negb (path_exists σ head')).
  - specialize (IH head' σ d Hd).
    destruct (makedirs_rec fuel head' σ) as [[u|e] σ1]; simpl in IH.
    + destruct (String.eqb tail' "."); [exact IH | apply keeps_dirs_mkdir; exact IH].
    + destruct e; try exact IH.
      destruct (String.eqb tail' "."); [exact IH | apply keeps_dirs_mkdir; exact IH].
  - apply keeps_dirs_mkdir. exact Hd.
Qed.

Lemma keeps_dirs_read_file (p : path) : keeps_dirs (read_file p).
Proof. intros σ d Hd. unfold read_file. repeat case_match; exact Hd. Qed.

Lemma keeps_dirs_open_truncate (p : path) : keeps_dirs (open_truncate p).
Proof.
  apply keeps_dirs_bind; [apply keeps_dirs_dir_ok |].
  intros _ σ d Hd. destruct (σ !! p) as [[|c]|] eqn:Hp; simpl; [exact Hd | |].
  - apply keeps_dirs_insert_file; [congruence | exact Hd].
  - apply keeps_dirs_insert_fresh; assumption.
Qed.

Lemma keeps_dirs_open_append_close (p : path) : keeps_dirs (open_append_close p).
Proof.
  apply keeps_dirs_bind; [apply keeps_dirs_dir_ok |].
  intros _ σ d Hd. destruct (σ !! p) as [[|c]|] eqn:Hp; simpl; [exact Hd | exact Hd |].
  apply keeps_dirs_insert_fresh; assumption.
Qed.

Lemma keeps_dirs_file_write (p : path) (text : string) : keeps_dirs (file_write p text).
Proof.
  intros σ d Hd. unfold file_write.
  destruct (σ !! p) as [[|c]|] eqn:Hp; simpl; [exact Hd | | exact Hd].
  apply keeps_dirs_insert_file; [congruence | exact Hd].
Qed.

Lemma keeps_dirs_copyfile (src dst : path) : keeps_dirs (copyfile src dst).
Proof.
  intros σ d Hd. unfold copyfile.
  destruct (String.eqb src dst && bool_decide (is_Some (σ !! src))); [exact Hd |].
  revert σ d Hd. apply keeps_dirs_bind; [apply keeps_dirs_read_file |].
  intros c. apply keeps_dirs_bind; [apply keeps_dirs_open_truncate |].
  intros _. apply keeps_dirs_file_write.
Qed.

Lemma keeps_dirs_mkstemp (dir : path) (rnd : string) : keeps_dirs (mkstemp dir rnd).
Proof.
  apply keeps_dirs_bind; [apply keeps_dirs_dir_ok |].
  intros _ σ d Hd. destruct (σ !! path_join dir ("tmp" ++ rnd)) eqn:Hp; simpl; [exact Hd |].
  apply keeps_dirs_insert_fresh; assumption.
Qed.

Lemma keeps_dirs_write_run_config `{Backends} `{HostEnv}
    (ts : TestSpecification) (temp_dir : path) (rnd : string) :
  keeps_dirs (_write_run_config ts temp_dir rnd).
Proof.
  unfold _write_run_config.
  repeat first
    [ progress cbv beta zeta
    | apply keeps_dirs_mkstemp | apply keeps_dirs_open_truncate
    | apply keeps_dirs_file_write | apply keeps_dirs_lift | apply keeps_dirs_ret
    | apply keeps_dirs_bind; [| intros ?] ].
Qed.

Lemma keeps_dirs_create_autopkg_details `{HostEnv} (temp_dir : path) :
  keeps_dirs (_create_autopkg_details temp_dir).
Proof.
  unfold _create_autopkg_details, _copy_file, makedirs.
  repeat first
    [ progress cbv beta zeta
    | apply keeps_dirs_makedirs_rec | apply keeps_dirs_copyfile
    | apply keeps_dirs_open_append_close | apply keeps_dirs_ret
    | apply keeps_dirs_bind; [| intros ?] ].
Qed.

Lemma keeps_dirs_setup_steps `{Backends} `{HostEnv}
    (ts : TestSpecification) (temp_dir : path) (rnd : string) :
  keeps_dirs (setup_steps ts temp_dir rnd).
Proof.
  unfold setup_steps.
  apply keeps_dirs_bind; [apply keeps_dirs_write_run_config | intros ?].
  apply keeps_dirs_bind; [apply keeps_dirs_create_autopkg_details | intros ?].
  apply keeps_dirs_ret.
Qed.

Lemma rmtree_dir (d : path) (σ : gmap string node) :
  σ !! d = Some Dir ->
  exists σ', rmtree d σ = (Ok tt, σ') /\
             (forall p, in_tree d p = true -> σ' !! p = None) /\
             (forall p, in_tree d p = false -> σ' !! p = σ !! p).
Proof.
  intros Hd. unfold rmtree. rewrite Hd. eexists. split; [reflexivity |]. split.
  - intros p Hp. apply map_lookup_filter_None. right. intros x _. simpl. congruence.
  - intros p Hp. destruct (σ !! p) as [x|] eqn:Hx.
    + apply map_lookup_filter_Some. split; [exact Hx | exact Hp].
    + apply map_lookup_filter_None. left. exact Hx.
Qed.

Lemma mkdtemp_ok `{HostEnv} (rnd : string) (σ σ1 : gmap string node) (temp_dir : path) :
  mkdtemp rnd σ = (Ok temp_dir, σ1) ->
  temp_dir = path_join tempdir ("tmp" ++ rnd) /\ σ1 = <[temp_dir := Dir]> σ /\
  σ !! temp_dir = None.
Proof.
  unfold mkdtemp, bindM. intros Hmk.
  destruct (dir_ok tempdir σ) as [[u|e] σ0] eqn:Hok; [| discriminate].
  pose proof (dir_ok_state tempdir σ) as Hst. rewrite Hok in Hst. simpl in Hst. subst σ0.
  destruct (σ !! path_join tempdir ("tmp" ++ rnd)) eqn:Hp; [discriminate |].
  injection Hmk as <- <-. auto.
Qed.

Lemma write_run_config_path `{Backends} `{HostEnv}
    (ts : TestSpecification) (temp_dir : path) (rnd : string)
    (σ σ' : gmap string node) (p : path) :
  _write_run_config ts temp_dir rnd σ = (Ok p, σ') -> p = path_join temp_dir ("tmp" ++ rnd).
Proof.
  unfold _write_run_config, mkstemp, bindM, retM. intros Hw.
  repeat (case_match; try discriminate). simplify_eq. reflexivity.
Qed.

Lemma setup_steps_files `{Backends} `{HostEnv}
    (ts : TestSpecification) (temp_dir : path) (rnd : string)
    (σ σ' : gmap string node) (files : TestrunTempFiles) :
  setup_steps ts temp_dir rnd σ = (Ok files, σ') ->
  files = {| run_config_file := path_join temp_dir ("tmp" ++ rnd);
             testrun_tmp_dir := temp_dir; unbuilt_dir := temp_dir |}.
Proof.
  unfold setup_steps, bindM, retM. intros Hs.
  destruct (_write_run_config ts temp_dir rnd σ) as [[p|e] σ1] eqn:Hw; [| discriminate].
  apply write_run_config_path in Hw. subst p.
  destruct (_create_autopkg_details temp_dir σ1) as [[u|e] σ2]; [| discriminate].
  injection Hs as <- _. reflexivity.
Qed.

(** ** [makedirs] has fuel enough *)

Lemma rsplit_slash_append (p h t : string) : rsplit_slash p = Some (h, t) -> h ++ t = p.
Proof.
  revert h t. induction p as [|c p IH]; intros h t; simpl; [discriminate |].
  destruct (rsplit_slash p) as [[h' t']|].
  - intros E. injection E as <- <-. simpl. rewrite (IH h' t' eq_refl). reflexivity.
  - destruct (is_slash c); [| discriminate].
    intros E. injection E as <- <-. reflexivity.
Qed.

Lemma rstrip_slash_length (s : string) :
  (String.length (rstrip_slash s) <= String.length s)%nat.
Proof.
  induction s as [|c s IH]; simpl; [lia |].
  destruct (is_slash c && String.eqb (rstrip_slash s) ""); simpl; lia.
Qed.

Lemma path_split_length (p : path) :
  (String.length (path_split p).1 + String.length (path_split p).2 <= String.length p)%nat.
Proof.
  unfold path_split. destruct (rsplit_slash p) as [[h t]|] eqn:E; simpl; [| lia].
  apply rsplit_slash_append in E. subst p. rewrite length_append.
  destruct (negb (String.eqb h "") && negb (all_slashes h)); [| lia].
  pose proof (rstrip_slash_length h). lia.
Qed.

Lemma mkdir_no_recursion_error (p : path) (σ : gmap string node) :
  (mkdir p σ).1 <> Raise RecursionError.
Proof.
  unfold mkdir, bindM, dir_ok. repeat case_match; simplify_eq; simpl; discriminate.
Qed.

(** The recursion of [makedirs] goes to a strictly shorter path, so the
    fuel [makedirs] starts with never runs out. *)
Lemma makedirs_rec_fuel (fuel : nat) (name : path) (σ : gmap string node) :
  (String.length name < fuel)%nat ->
  (makedirs_rec fuel name σ).1 <> Raise RecursionError.
Proof.
  revert name σ. induction fuel as [|fuel IH]; intros name σ Hlen; [lia |].
  simpl.
  pose proof (path_split_length name) as Hsplit.
  destruct (path_split name) as [head tail] eqn:Hps. simpl in Hsplit.
  assert (Hshort : forall head' tail',
            (if String.eqb tail "" then path_split head else (head, tail)) = (head', tail') ->
            tail' <> "" -> (String.length head' < String.length name)%nat).
  { intros head' tail' E Ht.
    assert (0 < String.length tail')%nat by (destruct tail'; [congruence | simpl; lia]).
    destruct (String.eqb tail "").
    - pose proof (path_split_length head) as Hsplit'. rewrite E in Hsplit'. simpl in Hsplit'. lia.
    - injection E as <- <-. lia. }
  destruct (if String.eqb tail "" then path_split head else (head, tail))
    as [head' tail'] eqn:E.
  destruct (negb (String.eqb head' "") && negb (String.eqb tail' "")
            && negb (path_exists σ head')) eqn:Hcond.
  - assert (Ht : tail' <> "").
    { apply andb_true_iff in Hcond as [Hc _]. apply andb_true_iff in Hc as [_ Hc].
      apply negb_true_iff, String.eqb_neq in Hc. exact Hc. }
    pose proof (Hshort head' tail' eq_refl Ht) as Hlt.
    assert (Hrec : (makedirs_rec fuel head' σ).1 <> Raise RecursionError)
      by (apply IH; lia).
    destruct (makedirs_rec fuel head' σ) as [[u|e] σ1]; simpl in Hrec.
    + destruct (String.eqb tail' "."); [discriminate | apply mkdir_no_recursion_error].
    + destruct e; try (simpl; congruence).
      destruct (String.eqb tail' "."); [discriminate | apply mkdir_no_recursion_error].
  - apply mkdir_no_recursion_error.
Qed.

Lemma makedirs_total (name : path) (σ : gmap string node) :
  (makedirs name σ).1 <> Raise RecursionError.
Proof. apply makedirs_rec_fuel. lia. Qed.

(** ** The preparation scope *)

Lemma tmp_name_relative (rnd : string) :
  starts_with_slash ("tmp" ++ rnd) = false /\ "tmp" ++ rnd <> "".
Proof. split; [reflexivity | discriminate]. Qed.

Lemma yield_inv `{Backends} `{HostEnv}
    (ts : TestSpecification) (rnd_dir rnd_file : string)
    (σ σ' : gmap string node) (files : TestrunTempFiles) (td : path) :
  prepare_test_environment_yield ts rnd_dir rnd_file σ = (Ok (files, td), σ') ->
  exists σ1,
    mkdtemp rnd_dir σ = (Ok td, σ1) /\
    setup_steps ts td rnd_file σ1 = (Ok files, σ').
Proof.
  unfold prepare_test_environment_yield. intros Hy.
  destruct (mkdtemp rnd_dir σ) as [[d|e] σ1]; [| discriminate].
  destruct (setup_steps ts d rnd_file σ1) as [[f|e] σ2] eqn:Hs.
  - injection Hy as <- <- <-. eauto.
  - destruct (_cleanup_dir d σ2) as [[u|e'] σ3]; discriminate.
Qed.

(** C9.  In every [TestrunTempFiles] the preparation yields,
    [testrun_tmp_dir] and [unbuilt_dir] are the same path, the temporary
    directory that was created, and [run_config_file] is a path inside
    it. *)
Theorem yielded_paths `{Backends} `{HostEnv}
    (ts : TestSpecification) (rnd_dir rnd_file : string)
    (σ σ' : gmap string node) (files : TestrunTempFiles) (td : path) :
  prepare_test_environment_yield ts rnd_dir rnd_file σ = (Ok (files, td), σ') ->
  testrun_tmp_dir files = unbuilt_dir files /\
  testrun_tmp_dir files = td /\
  td = path_join tempdir ("tmp" ++ rnd_dir) /\
  σ' !! td = Some Dir /\
  path_inside (testrun_tmp_dir files) (run_config_file files) = true.
Proof.
  intros Hy. destruct (yield_inv _ _ _ _ _ _ _ Hy) as (σ1 & Hmk & Hs).
  pose proof (setup_steps_files _ _ _ _ _ _ Hs) as ->.
  destruct (mkdtemp_ok _ _ _ _ Hmk) as (Htd & Hσ1 & _).
  destruct (tmp_name_relative rnd_dir) as [Hrel Hne].
  destruct (tmp_name_relative rnd_file) as [Hrel' Hne'].
  simpl. repeat split; auto.
  - pose proof (keeps_dirs_setup_steps ts td rnd_file σ1 td) as Hk.
    rewrite Hs in Hk. apply Hk. rewrite Hσ1. apply lookup_insert_eq.
  - apply path_inside_join; [| exact Hrel' | exact Hne'].
    rewrite Htd. apply path_join_nonempty. exact Hne.
Qed.


(** ** Lines *)

Lemma split_lines_app (a b : string) :
  no_newline a -> split_lines (a ++ b) = prepend_first a (split_lines b).
Proof.
  unfold no_newline. induction a as [|c a IH]; simpl.
  - intros _. destruct (split_lines b) eqn:E; [| reflexivity].
    destruct b as [|x b]; simpl in E; [discriminate |].
    destruct (Ascii.eqb x newline_char); [discriminate |].
    destruct (split_lines b); discriminate.
  - destruct (Ascii.eqb c newline_char); [discriminate |].
    intros Ha. rewrite (IH Ha).
    destruct (split_lines b); reflexivity.
Qed.

Lemma split_lines_line (l rest : string) :
  no_newline l -> split_lines (l ++ nl ++ rest) = l :: split_lines rest.
Proof.
  intros Hl. rewrite (split_lines_app l _ Hl). simpl.
  rewrite append_empty_r. reflexivity.
Qed.

Lemma split_lines_one (l : string) : no_newline l -> split_lines l = [l].
Proof.
  intros Hl. rewrite <- (append_empty_r l) at 1.
  rewrite (split_lines_app l "" Hl). simpl. rewrite append_empty_r. reflexivity.
Qed.

Lemma no_newline_app (a b : string) : no_newline a -> no_newline b -> no_newline (a ++ b).
Proof.
  unfold no_newline. intros Ha Hb. rewrite str_contains_char_app, Ha, Hb. reflexivity.
Qed.

Lemma no_newline_assignment (k v : string) :
  no_newline k -> no_newline v -> no_newline (assignment k v).
Proof.
  intros Hk Hv. unfold assignment.
  repeat apply no_newline_app; auto; reflexivity.
Qed.

Lemma no_newline_join (l : list string) :
  Forall no_newline l -> no_newline (join " " l).
Proof.
  induction 1 as [|x l Hx Hl IH]; [reflexivity |].
  destruct l as [|y l]; [exact Hx |].
  change (join " " (x :: y :: l)) with (x ++ " " ++ join " " (y :: l)).
  repeat apply no_newline_app; auto; reflexivity.
Qed.

(** ** Sourcing *)

Lemma name_start_facts (c : ascii) :
  is_name_start c = true ->
  is_blank c = false /\ Ascii.eqb c newline_char = false /\
  Ascii.eqb c "#" = false /\ is_name_char c = true.
Proof.
  destruct c as [[] [] [] [] [] [] [] []]; vm_compute; intros E;
    first [discriminate E | repeat split].
Qed.

Lemma name_char_facts (c : ascii) :
  is_name_char c = true -> Ascii.eqb c "=" = false.
Proof.
  destruct c as [[] [] [] [] [] [] [] []]; vm_compute; intros E;
    first [discriminate E | reflexivity].
Qed.

Lemma plain_char_facts (c : ascii) :
  sh_special c = false ->
  Ascii.eqb c dquote_char = false /\ Ascii.eqb c backslash_char = false /\
  Ascii.eqb c "$" = false /\ Ascii.eqb c backquote_char = false.
Proof.
  unfold sh_special. intros E.
  apply orb_false_elim in E as [E Hbs]. apply orb_false_elim in E as [E Hbq].
  apply orb_false_elim in E as [Hdq Hdollar]. auto.
Qed.

Lemma sh_scan_comment (l rest : string) (done : list (string * string)) :
  no_newline l ->
  sh_scan ShComment done (l ++ String newline_char rest) = sh_scan ShStart done rest.
Proof.
  unfold no_newline. induction l as [|c l IH]; simpl; [reflexivity |].
  destruct (Ascii.eqb c newline_char); [discriminate | exact IH].
Qed.

Lemma sh_scan_name (k acc rest : string) (done : list (string * string)) :
  forallb is_name_char (list_ascii_of_string k) = true ->
  sh_scan (ShName acc) done (k ++ String "=" rest)
  = sh_scan (ShValue (acc ++ k) "") done rest.
Proof.
  revert acc. induction k as [|c k IH]; intros acc Hk.
  - rewrite append_empty_r. reflexivity.
  - simpl in Hk. apply andb_true_iff in Hk as [Hc Hk].
    rewrite append_cons. simpl sh_scan. rewrite Hc.
    rewrite (IH _ Hk). unfold snoc_char. rewrite append_assoc. reflexivity.
Qed.

Lemma sh_scan_dq (v n acc rest : string) (done : list (string * string)) :
  sh_plain v = true ->
  sh_scan (ShDQ n acc) done (v ++ String dquote_char rest)
  = sh_scan (ShValue n (acc ++ v)) done rest.
Proof.
  revert acc. induction v as [|c v IH]; intros acc Hv.
  - rewrite append_empty_r. reflexivity.
  - simpl in Hv. apply andb_true_iff in Hv as [Hc Hv].
    apply negb_true_iff, plain_char_facts in Hc as (Hdq & Hbs & Hdollar & Hbq).
    rewrite append_cons. simpl sh_scan. rewrite Hdq, Hbs, Hdollar, Hbq. cbn [orb].
    rewrite (IH _ Hv). unfold snoc_char. rewrite append_assoc. reflexivity.
Qed.

(** An assignment line between double quotes, with a value that stands
    for itself, assigns that value. *)
Lemma sh_scan_assignment (k v rest : string) (done : list (string * string)) :
  sh_name k = true -> sh_plain v = true ->
  sh_scan ShStart done (assignment k v ++ nl ++ rest) = sh_scan ShStart (done ++ [(k, v)]) rest.
Proof.
  intros Hk Hv. destruct k as [|c k]; [discriminate |].
  simpl in Hk. apply andb_true_iff in Hk as [Hc Hk].
  destruct (name_start_facts c Hc) as (Hb & Hn & Hh & _).
  unfold assignment, dq, nl. rewrite !append_assoc. simpl.
  rewrite Hb, Hn, Hh, Hc. cbn [orb].
  rewrite (sh_scan_name k (String c "") _ done Hk). simpl.
  rewrite (sh_scan_dq v (String c k) "" _ done Hv). simpl.
  reflexivity.
Qed.

Lemma sh_plain_app (a b : string) :
  sh_plain a = true -> sh_plain b = true -> sh_plain (a ++ b) = true.
Proof.
  intros Ha Hb. induction a as [|c a IH]; [exact Hb |].
  simpl in *. apply andb_true_iff in Ha as [Hc Ha]. rewrite Hc. exact (IH Ha).
Qed.

Lemma sh_plain_join (l : list string) :
  Forall (fun s => sh_plain s = true) l -> sh_plain (join " " l) = true.
Proof.
  induction 1 as [|x l Hx Hl IH]; [reflexivity |].
  destruct l as [|y l]; [exact Hx |].
  change (join " " (x :: y :: l)) with (x ++ " " ++ join " " (y :: l)).
  repeat apply sh_plain_app; auto.
Qed.

(** The six assignments a shell makes from a run configuration whose
    values stand for themselves. *)
Lemma sh_source_run_config_text (location pre_tests post_tests initial final : string) :
  sh_plain location = true -> sh_plain pre_tests = true -> sh_plain post_tests = true ->
  sh_plain initial = true -> sh_plain final = true ->
  sh_source (run_config_text location pre_tests post_tests initial final) =
    Some [("PRE_TEST_LOCATION", location ++ "/pre_scripts");
          ("POST_TEST_LOCATION", location ++ "/post_scripts");
          ("PRE_TESTS_TO_RUN", pre_tests);
          ("POST_TESTS_TO_RUN", post_tests);
          ("INITIAL_SYSTEM_STATE", initial);
          ("POST_SYSTEM_STATE", final)].
Proof.
  intros Hloc Hpre Hpost Hi Hf. unfold sh_source, run_config_text.
  replace (assignment "POST_SYSTEM_STATE" final ++ nl)
    with (assignment "POST_SYSTEM_STATE" final ++ nl ++ "")
    by (rewrite append_empty_r; reflexivity).
  change ("# Auto Upgrade Test Configuration" ++ nl ++ ?r)
    with (String "#" (" Auto Upgrade Test Configuration" ++ String newline_char r)).
  change (sh_scan ShStart [] (String "#" ?t)) with (sh_scan ShComment [] t).
  rewrite sh_scan_comment by reflexivity.
  rewrite !sh_scan_assignment; auto using sh_plain_app.
Qed.

(** ** The text of the run configuration *)

Lemma config_template_lines (location : string) :
  no_newline location ->
  split_lines (config_template location) =
    ["            # Auto Upgrade Test Configuration";
     "            " ++ assignment "PRE_TEST_LOCATION" (location ++ "/pre_scripts");
     "            " ++ assignment "POST_TEST_LOCATION" (location ++ "/post_scripts");
     "        "].
Proof.
  intros Hloc.
  assert (E : config_template location =
              "            # Auto Upgrade Test Configuration" ++ nl ++
              ("            " ++ assignment "PRE_TEST_LOCATION" (location ++ "/pre_scripts")) ++ nl ++
              ("            " ++ assignment "POST_TEST_LOCATION" (location ++ "/post_scripts")) ++ nl ++
              "        ").
  { unfold config_template, assignment. rewrite !append_assoc. reflexivity. }
  rewrite E.
  rewrite split_lines_line by reflexivity.
  rewrite split_lines_line
    by (apply no_newline_app; [reflexivity |];
        apply no_newline_assignment; [reflexivity |];
        apply no_newline_app; [exact Hloc | reflexivity]).
  rewrite split_lines_line
    by (apply no_newline_app; [reflexivity |];
        apply no_newline_assignment; [reflexivity |];
        apply no_newline_app; [exact Hloc | reflexivity]).
  reflexivity.
Qed.

Lemma dedent_config_template (location : string) :
  no_newline location ->
  dedent (config_template location) =
    "# Auto Upgrade Test Configuration" ++ nl ++
    assignment "PRE_TEST_LOCATION" (location ++ "/pre_scripts") ++ nl ++
    assignment "POST_TEST_LOCATION" (location ++ "/post_scripts") ++ nl.
Proof.
  intros Hloc. unfold dedent. rewrite (config_template_lines location Hloc).
  unfold assignment. simpl. reflexivity.
Qed.

(** ** Writing the run configuration *)

Lemma bindM_ok {A B : Type} (m : M A) (f : A -> M B) (σ σ' : gmap string node) (a : A) :
  m σ = (Ok a, σ') -> bindM m f σ = f a σ'.
Proof. intros Hm. unfold bindM. rewrite Hm. reflexivity. Qed.

Lemma file_write_inserted (p : path) (c text : string) (σ : gmap string node) :
  file_write p text (<[p := File c]> σ) = (Ok tt, <[p := File (c ++ text)]> σ).
Proof.
  unfold file_write. rewrite lookup_insert_eq, insert_insert_eq. reflexivity.
Qed.

Lemma mkstemp_fresh (dir : path) (rnd : string) (σ : gmap string node) :
  σ !! dir = Some Dir -> σ !! path_join dir ("tmp" ++ rnd) = None ->
  mkstemp dir rnd σ =
    (Ok (path_join dir ("tmp" ++ rnd)), <[path_join dir ("tmp" ++ rnd) := File ""]> σ).
Proof.
  intros Hd Hf. unfold mkstemp.
  rewrite (bindM_ok _ _ _ _ _ (dir_ok_dir dir σ Hd)). rewrite Hf. reflexivity.
Qed.

Lemma open_truncate_file (p : path) (c : string) (σ : gmap string node) :
  σ !! dirname p = Some Dir -> dirname p <> p ->
  open_truncate p (<[p := File c]> σ) = (Ok tt, <[p := File ""]> σ).
Proof.
  intros Hd Hne. unfold open_truncate.
  assert (Hd' : <[p := File c]> σ !! dirname p = Some Dir)
    by (rewrite lookup_insert_ne by congruence; exact Hd).
  rewrite (bindM_ok _ _ _ _ _ (dir_ok_dir _ _ Hd')).
  rewrite lookup_insert_eq, insert_insert_eq. reflexivity.
Qed.

Lemma write_run_config_run `{Backends} `{HostEnv}
    (ts : TestSpecification) (temp_dir : path) (rnd : string)
    (σ : gmap string node) (s0 s1 : pyval) :
  temp_dir <> "" -> ends_with_slash temp_dir = false -> slash_free rnd ->
  σ !! temp_dir = Some Dir ->
  σ !! path_join temp_dir ("tmp" ++ rnd) = None ->
  initial_state (provisioning ts) = Ok s0 ->
  final_state (provisioning ts) = Ok s1 ->
  no_newline testbed_location ->
  _write_run_config ts temp_dir rnd σ =
    (Ok (path_join temp_dir ("tmp" ++ rnd)),
     <[path_join temp_dir ("tmp" ++ rnd) :=
         File (run_config_text testbed_location
                 (join " " (pre_upgrade_scripts ts)) (join " " (post_upgrade_tests ts))
                 (py_str s0) (py_str s1))]> σ).
Proof.
  intros Hne Hend Hrnd Hdir Hfresh Hs0 Hs1 Hloc.
  assert (Hjoin : path_join temp_dir ("tmp" ++ rnd) = temp_dir ++ "/" ++ "tmp" ++ rnd)
    by (apply path_join_relative; auto).
  assert (Hparent : dirname (path_join temp_dir ("tmp" ++ rnd)) = temp_dir).
  { rewrite Hjoin. apply dirname_child; [exact Hne | exact Hend | exact Hrnd]. }
  assert (Hdiff : dirname (path_join temp_dir ("tmp" ++ rnd)) <> path_join temp_dir ("tmp" ++ rnd)).
  { rewrite Hparent. intros E. rewrite <- E in Hfresh. congruence. }
  unfold _write_run_config. cbv zeta.
  rewrite (bindM_ok _ _ _ _ _ (mkstemp_fresh temp_dir rnd σ Hdir Hfresh)).
  rewrite (bindM_ok _ _ _ _ _
             (open_truncate_file _ "" σ ltac:(rewrite Hparent; exact Hdir) Hdiff)).
  rewrite (bindM_ok _ _ _ _ _ (file_write_inserted _ _ _ σ)).
  rewrite (bindM_ok _ _ _ _ _ (file_write_inserted _ _ _ σ)).
  rewrite (bindM_ok _ _ _ _ _ (file_write_inserted _ _ _ σ)).
  rewrite Hs0. unfold lift at 1.
  rewrite (bindM_ok _ _ _ _ _ (eq_refl : (fun σ' => (Ok s0, σ')) _ = (Ok s0, _))).
  rewrite (bindM_ok _ _ _ _ _ (file_write_inserted _ _ _ σ)).
  rewrite Hs1. unfold lift at 1.
  rewrite (bindM_ok _ _ _ _ _ (eq_refl : (fun σ' => (Ok s1, σ')) _ = (Ok s1, _))).
  rewrite (bindM_ok _ _ _ _ _ (file_write_inserted _ _ _ σ)).
  unfold retM. rewrite (dedent_config_template _ Hloc).
  unfold run_config_text, assignment.
  rewrite !append_assoc. reflexivity.
Qed.

(** C7, as the code has it.  For a test specification whose script
    names, test names and system states hold none of the characters that
    keep a meaning between double quotes (the double quote, the dollar sign,
    the backquote, the backslash), and a storage location that holds none of
    them and no line break, a shell that sources the run configuration
    written into the temporary directory makes exactly six assignments, in
    this order: the two script locations, the pre-upgrade script names and
    the post-upgrade test names, each joined by single spaces, and the
    initial and the final state of the provisioning specification. *)
Theorem run_config_contents `{Backends} `{HostEnv}
    (ts : TestSpecification) (temp_dir : path) (rnd : string)
    (σ : gmap string node) (s0 s1 : pyval) :
  temp_dir <> "" -> ends_with_slash temp_dir = false -> slash_free rnd ->
  σ !! temp_dir = Some Dir ->
  σ !! path_join temp_dir ("tmp" ++ rnd) = None ->
  initial_state (provisioning ts) = Ok s0 ->
  final_state (provisioning ts) = Ok s1 ->
  no_newline testbed_location ->
  sh_plain testbed_location = true ->
  Forall (fun s => sh_plain s = true) (pre_upgrade_scripts ts) ->
  Forall (fun s => sh_plain s = true) (post_upgrade_tests ts) ->
  sh_plain (py_str s0) = true -> sh_plain (py_str s1) = true ->
  exists file content σ',
    _write_run_config ts temp_dir rnd σ = (Ok file, σ') /\
    σ' !! file = Some (File content) /\
    (exists vars, sh_source content = Some vars /\ map fst vars = run_config_names) /\
    sh_source content =
      Some [("PRE_TEST_LOCATION", testbed_location ++ "/pre_scripts");
            ("POST_TEST_LOCATION", testbed_location ++ "/post_scripts");
            ("PRE_TESTS_TO_RUN", join " " (pre_upgrade_scripts ts));
            ("POST_TESTS_TO_RUN", join " " (post_upgrade_tests ts));
            ("INITIAL_SYSTEM_STATE", py_str s0);
            ("POST_SYSTEM_STATE", py_str s1)].
Proof.
  intros Hne Hend Hrnd Hdir Hfresh Hs0 Hs1 Hloc Hploc Hpre Hpost Hp0 Hp1.
  pose proof (sh_source_run_config_text testbed_location
                (join " " (pre_upgrade_scripts ts)) (join " " (post_upgrade_tests ts))
                (py_str s0) (py_str s1) Hploc
                (sh_plain_join _ Hpre) (sh_plain_join _ Hpost) Hp0 Hp1) as Hsrc.
  eexists _, _, _. split.
  - apply (write_run_config_run ts temp_dir rnd σ s0 s1); assumption.
  - split; [apply lookup_insert_eq |]. split; [| exact Hsrc].
    eexists. split; [exact Hsrc | reflexivity].
Qed.

Lemma run_config_contents_witness :
  exists file content σ',
    _write_run_config (H := accepting_backends) (H0 := sample_host)
      sample_testsuite "/tmp/tmpabcd1234" "efgh5678"
      (<["/tmp/tmpabcd1234" := Dir]> sample_fs) = (Ok file, σ') /\
    σ' !! file = Some (File content) /\
    (exists vars, sh_source content = Some vars /\ map fst vars = run_config_names) /\
    sh_source content =
      Some [("PRE_TEST_LOCATION", "/var/tmp/ubuntu-upgrade-testing" ++ "/pre_scripts");
            ("POST_TEST_LOCATION", "/var/tmp/ubuntu-upgrade-testing" ++ "/post_scripts");
            ("PRE_TESTS_TO_RUN", join " " ["a.sh"; "b.sh"]);
            ("POST_TESTS_TO_RUN", join " " ["t1"]);
            ("INITIAL_SYSTEM_STATE", py_str (PStr "14.04"));
            ("POST_SYSTEM_STATE", py_str (PStr "16.04"))].
Proof.
  apply (run_config_contents (H := accepting_backends) (H0 := sample_host)
           sample_testsuite "/tmp/tmpabcd1234" "efgh5678"
           (<["/tmp/tmpabcd1234" := Dir]> sample_fs) (PStr "14.04") (PStr "16.04")).
  - discriminate.
  - reflexivity.
  - reflexivity.
  - apply lookup_insert_eq.
  - unfold sample_fs.
    repeat (rewrite lookup_insert_ne by discriminate). apply lookup_empty.
  - reflexivity.
  - reflexivity.
  - reflexivity.
  - reflexivity.
  - repeat constructor.
  - repeat constructor.
  - reflexivity.
  - reflexivity.
Defined.

(** ** The preparation goes through *)

Lemma slash_free_no_trailing (s : string) : slash_free s -> ends_with_slash s = false.
Proof.
  unfold slash_free. induction s as [|c s IH]; [reflexivity |]. simpl.
  unfold is_slash. destruct (Ascii.eqb c slash_char); [discriminate |].
  intros Hs. destruct s; [reflexivity | exact (IH Hs)].
Qed.

Lemma ends_with_slash_child (d n : string) :
  n <> "" -> slash_free n -> ends_with_slash (d ++ "/" ++ n) = false.
Proof.
  intros Hn Hs. rewrite <- append_assoc.
  rewrite (ends_with_slash_app (d ++ "/") n Hn). apply slash_free_no_trailing, Hs.
Qed.

Lemma child_nonempty (d n : string) : d ++ "/" ++ n <> "".
Proof. destruct d; discriminate. Qed.

Lemma path_join_tmp_normal (a rnd : string) :
  slash_free rnd ->
  path_join a ("tmp" ++ rnd) <> "" /\ ends_with_slash (path_join a ("tmp" ++ rnd)) = false.
Proof.
  intros Hr. split; [apply path_join_nonempty; discriminate |].
  assert (Hs : slash_free ("tmp" ++ rnd)) by exact Hr.
  unfold path_join. change (starts_with_slash ("tmp" ++ rnd)) with false. cbv iota.
  destruct (String.eqb a "" || ends_with_slash a).
  - rewrite ends_with_slash_app by discriminate. apply slash_free_no_trailing, Hs.
  - apply ends_with_slash_child; [discriminate | exact Hs].
Qed.

Lemma in_tree_child (d x : string) :
  d <> "" -> ends_with_slash d = false -> x <> "" -> in_tree d (d ++ "/" ++ x) = true.
Proof.
  intros Hd He Hx. apply in_tree_inside. unfold path_inside, dir_prefix. rewrite He.
  rewrite <- append_assoc, prefix_append. simpl.
  apply Nat.ltb_lt. rewrite !length_append.
  destruct x; [congruence | simpl; lia].
Qed.

Lemma mkdir_fresh (p : path) (σ : gmap string node) :
  σ !! dirname p = Some Dir -> σ !! p = None ->
  mkdir p σ = (Ok tt, <[p := Dir]> σ).
Proof.
  intros Hd Hp. unfold mkdir.
  rewrite (bindM_ok _ _ _ _ _ (dir_ok_dir _ _ Hd)). rewrite Hp. reflexivity.
Qed.

Lemma open_truncate_fresh (p : path) (σ : gmap string node) :
  σ !! dirname p = Some Dir -> σ !! p = None ->
  open_truncate p σ = (Ok tt, <[p := File ""]> σ).
Proof.
  intros Hd Hp. unfold open_truncate.
  rewrite (bindM_ok _ _ _ _ _ (dir_ok_dir _ _ Hd)). rewrite Hp. reflexivity.
Qed.

Lemma open_append_close_fresh (p : path) (σ : gmap string node) :
  σ !! dirname p = Some Dir -> σ !! p = None ->
  open_append_close p σ = (Ok tt, <[p := File ""]> σ).
Proof.
  intros Hd Hp. unfold open_append_close.
  rewrite (bindM_ok _ _ _ _ _ (dir_ok_dir _ _ Hd)). rewrite Hp. reflexivity.
Qed.

Lemma copyfile_fresh (src dst : path) (c : string) (σ : gmap string node) :
  σ !! src = Some (File c) -> σ !! dirname dst = Some Dir -> σ !! dst = None ->
  copyfile src dst σ = (Ok tt, <[dst := File c]> σ).
Proof.
  intros Hs Hd Hp. unfold copyfile.
  assert (Hne : src <> dst) by congruence.
  apply String.eqb_neq in Hne. rewrite Hne. cbn [andb].
  assert (Hr : read_file src σ = (Ok c, σ)) by (unfold read_file; rewrite Hs; reflexivity).
  rewrite (bindM_ok _ _ _ _ _ Hr).
  rewrite (bindM_ok _ _ _ _ _ (open_truncate_fresh dst σ Hd Hp)).
  apply file_write_inserted.
Qed.

(** [makedirs] on a grandchild of a directory that exists. *)
Lemma makedirs_two_levels (d a b : string) (σ : gmap string node) :
  d <> "" -> ends_with_slash d = false ->
  a <> "" -> slash_free a -> b <> "" -> slash_free b -> b <> "." ->
  σ !! d = Some Dir ->
  σ !! (d ++ "/" ++ a) = None ->
  σ !! ((d ++ "/" ++ a) ++ "/" ++ b) = None ->
  makedirs ((d ++ "/" ++ a) ++ "/" ++ b) σ =
    (Ok tt, <[(d ++ "/" ++ a) ++ "/" ++ b := Dir]> (<[d ++ "/" ++ a := Dir]> σ)).
Proof.
  intros Hd He Ha Hsa Hb Hsb Hdot Hdir Hna Hnb.
  pose proof (child_nonempty d a) as HD.
  pose proof (ends_with_slash_child d a Ha Hsa) as HDe.
  assert (Hsplit2 : path_split ((d ++ "/" ++ a) ++ "/" ++ b) = (d ++ "/" ++ a, b))
    by (apply path_split_child; assumption).
  assert (Hsplit1 : path_split (d ++ "/" ++ a) = (d, a))
    by (apply path_split_child; assumption).
  assert (Hdir2 : dirname ((d ++ "/" ++ a) ++ "/" ++ b) = d ++ "/" ++ a)
    by (apply dirname_child; assumption).
  assert (Hdir1 : dirname (d ++ "/" ++ a) = d) by (apply dirname_child; assumption).
  assert (Hb' : String.eqb b "" = false) by (apply String.eqb_neq; exact Hb).
  assert (Ha' : String.eqb a "" = false) by (apply String.eqb_neq; exact Ha).
  assert (HD' : String.eqb (d ++ "/" ++ a) "" = false) by (apply String.eqb_neq; exact HD).
  assert (Hd' : String.eqb d "" = false) by (apply String.eqb_neq; exact Hd).
  assert (Hdot' : String.eqb b "." = false) by (apply String.eqb_neq; exact Hdot).
  assert (Hex2 : path_exists σ (d ++ "/" ++ a) = false).
  { unfold path_exists. rewrite HD', Hna.
    rewrite (all_slashes_false _ HD HDe). reflexivity. }
  assert (Hex1 : path_exists σ d = true).
  { unfold path_exists. rewrite Hdir. apply orb_true_r. }
  unfold makedirs.
  destruct (String.length ((d ++ "/" ++ a) ++ "/" ++ b)) as [|n] eqn:H;
    [rewrite !length_append in H; simpl in H; lia |].
  cbn [makedirs_rec].
  rewrite Hsplit2. cbv beta iota. rewrite Hb'. cbv beta iota.
  rewrite Hb', HD', Hex2. cbn [negb andb].
  destruct n as [|n]; [rewrite !length_append in H; simpl in H; lia |].
  cbn [makedirs_rec].
  rewrite Hsplit1. cbv beta iota. rewrite Ha'. cbv beta iota.
  rewrite Ha', Hd', Hex1. cbn [negb andb].
  rewrite (mkdir_fresh (d ++ "/" ++ a) σ) by (rewrite ?Hdir1; assumption).
  rewrite Hdot'.
  apply mkdir_fresh.
  - rewrite Hdir2. apply lookup_insert_eq.
  - rewrite lookup_insert_ne; [exact Hnb |].
    intros E. rewrite <- E in Hnb. congruence.
Qed.

Ltac path_neq :=
  first
    [ congruence
    | let E := fresh "E" in
      intros E; apply (f_equal String.length) in E;
      rewrite ?length_append in E; simpl in E; lia
    | let E := fresh "E" in
      intros E; rewrite ?append_assoc in E; simpl in E;
      apply (inj (String.append _)) in E; discriminate E ].

Ltac fs_lookup :=
  repeat (rewrite lookup_insert_ne by path_neq);
  first [apply lookup_insert_eq | assumption].

Lemma path_inside_child (d x : string) :
  d <> "" -> ends_with_slash d = false -> x <> "" -> path_inside d (d ++ "/" ++ x) = true.
Proof.
  intros Hd He Hx. unfold path_inside, dir_prefix. rewrite He.
  rewrite <- append_assoc, prefix_append. simpl.
  apply Nat.ltb_lt. rewrite !length_append.
  destruct x; [congruence | simpl; lia].
Qed.

Lemma path_inside_grandchild (d x y : string) :
  d <> "" -> ends_with_slash d = false -> path_inside d ((d ++ "/" ++ x) ++ "/" ++ y) = true.
Proof.
  intros Hd He. rewrite !append_assoc. apply path_inside_child; auto.
  destruct x; discriminate.
Qed.

(** The set-up in a fresh temporary directory, with the package data in
    place: every step succeeds, and the tree holds the run configuration
    and the dummy package. *)
Lemma setup_steps_run `{Backends} `{HostEnv}
    (ts : TestSpecification) (td : path) (rnd : string)
    (σ : gmap string node) (s0 s1 : pyval) (c1 c2 c3 : string) :
  td <> "" -> ends_with_slash td = false -> slash_free rnd ->
  σ !! td = Some Dir ->
  (forall p, path_inside td p = true -> σ !! p = None) ->
  σ !! path_join source_dir "control" = Some (File c1) ->
  σ !! path_join source_dir "upgrade" = Some (File c2) ->
  σ !! path_join source_dir "changelog" = Some (File c3) ->
  initial_state (provisioning ts) = Ok s0 ->
  final_state (provisioning ts) = Ok s1 ->
  no_newline testbed_location ->
  setup_steps ts td rnd σ =
    (Ok {| run_config_file := td ++ "/" ++ "tmp" ++ rnd;
           testrun_tmp_dir := td; unbuilt_dir := td |},
     <[(td ++ "/" ++ "debian") ++ "/" ++ "control" := File ""]>
     (<[(td ++ "/" ++ "debian") ++ "/" ++ "changelog" := File c3]>
     (<[((td ++ "/" ++ "debian") ++ "/" ++ "tests") ++ "/" ++ "upgrade" := File c2]>
     (<[((td ++ "/" ++ "debian") ++ "/" ++ "tests") ++ "/" ++ "control" := File c1]>
     (<[(td ++ "/" ++ "debian") ++ "/" ++ "tests" := Dir]>
     (<[td ++ "/" ++ "debian" := Dir]>
     (<[td ++ "/" ++ "tmp" ++ rnd :=
          File (run_config_text testbed_location
                  (join " " (pre_upgrade_scripts ts)) (join " " (post_upgrade_tests ts))
                  (py_str s0) (py_str s1))]> σ))))))).
Proof.
  intros Hne He Hrnd Hdir Hfresh Hc1 Hc2 Hc3 Hs0 Hs1 Hloc.
  assert (Hjf : path_join td ("tmp" ++ rnd) = td ++ "/" ++ "tmp" ++ rnd)
    by (apply path_join_relative; auto).
  assert (HjD : path_join td "debian" = td ++ "/" ++ "debian")
    by (apply path_join_relative; auto).
  pose proof (child_nonempty td "debian") as HD.
  pose proof (ends_with_slash_child td "debian" ltac:(discriminate) eq_refl) as HDe.
  assert (HjT : path_join (td ++ "/" ++ "debian") "tests" = (td ++ "/" ++ "debian") ++ "/" ++ "tests")
    by (apply path_join_relative; auto).
  pose proof (child_nonempty (td ++ "/" ++ "debian") "tests") as HT.
  pose proof (ends_with_slash_child (td ++ "/" ++ "debian") "tests" ltac:(discriminate) eq_refl)
    as HTe.
  assert (HjTC : path_join ((td ++ "/" ++ "debian") ++ "/" ++ "tests") "control"
                 = ((td ++ "/" ++ "debian") ++ "/" ++ "tests") ++ "/" ++ "control")
    by (apply path_join_relative; auto).
  assert (HjTU : path_join ((td ++ "/" ++ "debian") ++ "/" ++ "tests") "upgrade"
                 = ((td ++ "/" ++ "debian") ++ "/" ++ "tests") ++ "/" ++ "upgrade")
    by (apply path_join_relative; auto).
  assert (HjDL : path_join (td ++ "/" ++ "debian") "changelog"
                 = (td ++ "/" ++ "debian") ++ "/" ++ "changelog")
    by (apply path_join_relative; auto).
  assert (HjDC : path_join (td ++ "/" ++ "debian") "control"
                 = (td ++ "/" ++ "debian") ++ "/" ++ "control")
    by (apply path_join_relative; auto).
  assert (HNf : σ !! (td ++ "/" ++ "tmp" ++ rnd) = None)
    by (apply Hfresh, path_inside_child; auto; discriminate).
  assert (HND : σ !! (td ++ "/" ++ "debian") = None)
    by (apply Hfresh, path_inside_child; auto; discriminate).
  assert (HNT : σ !! ((td ++ "/" ++ "debian") ++ "/" ++ "tests") = None)
    by (apply Hfresh, path_inside_grandchild; auto).
  assert (HNTC : σ !! (((td ++ "/" ++ "debian") ++ "/" ++ "tests") ++ "/" ++ "control") = None)
    by (rewrite (append_assoc (td ++ "/" ++ "debian"));
        apply Hfresh, path_inside_grandchild; auto).
  assert (HNTU : σ !! (((td ++ "/" ++ "debian") ++ "/" ++ "tests") ++ "/" ++ "upgrade") = None)
    by (rewrite (append_assoc (td ++ "/" ++ "debian"));
        apply Hfresh, path_inside_grandchild; auto).
  assert (HNDL : σ !! ((td ++ "/" ++ "debian") ++ "/" ++ "changelog") = None)
    by (apply Hfresh, path_inside_grandchild; auto).
  assert (HNDC : σ !! ((td ++ "/" ++ "debian") ++ "/" ++ "control") = None)
    by (apply Hfresh, path_inside_grandchild; auto).
  unfold setup_steps.
  rewrite (bindM_ok _ _ _ _ _
             (write_run_config_run ts td rnd σ s0 s1 Hne He Hrnd Hdir
                ltac:(rewrite Hjf; exact HNf) Hs0 Hs1 Hloc)).
  rewrite Hjf.
  unfold _create_autopkg_details, _copy_file. cbv zeta.
  rewrite HjD, HjT, HjTC, HjTU, HjDL, HjDC.
  unfold bindM at 1.
  erewrite (bindM_ok (makedirs _)); cycle 1.
  { apply makedirs_two_levels; auto; try discriminate; try reflexivity; fs_lookup. }
  erewrite (bindM_ok (copyfile _ _)); cycle 1.
  { apply copyfile_fresh with (c := c1);
      [| rewrite dirname_child by (auto; reflexivity) |]; fs_lookup. }
  erewrite (bindM_ok (copyfile _ _)); cycle 1.
  { apply copyfile_fresh with (c := c2);
      [| rewrite dirname_child by (auto; reflexivity) |]; fs_lookup. }
  erewrite (bindM_ok (copyfile _ _)); cycle 1.
  { apply copyfile_fresh with (c := c3);
      [| rewrite dirname_child by (auto; reflexivity) |]; fs_lookup. }
  erewrite (bindM_ok (open_append_close _)); cycle 1.
  { apply open_append_close_fresh;
      [rewrite dirname_child by (auto; reflexivity) |]; fs_lookup. }
  reflexivity.
Qed.

Lemma mkdtemp_fresh `{HostEnv} (rnd : string) (σ : gmap string node) :
  σ !! tempdir = Some Dir -> σ !! path_join tempdir ("tmp" ++ rnd) = None ->
  mkdtemp rnd σ =
    (Ok (path_join tempdir ("tmp" ++ rnd)), <[path_join tempdir ("tmp" ++ rnd) := Dir]> σ).
Proof.
  intros Hd Hf. unfold mkdtemp.
  rewrite (bindM_ok _ _ _ _ _ (dir_ok_dir _ σ Hd)). rewrite Hf. reflexivity.
Qed.

(** With the host's temporary directory in place, nothing yet where the new
    directory goes and the package data installed, the preparation reaches
    its [yield]: the temporary directory exists and holds the run
    configuration and the dummy package tree. *)
Lemma yield_run `{Backends} `{HostEnv}
    (ts : TestSpecification) (rnd_dir rnd_file : string)
    (σ : gmap string node) (s0 s1 : pyval) (c1 c2 c3 : string) :
  let td := path_join tempdir ("tmp" ++ rnd_dir) in
  slash_free rnd_dir -> slash_free rnd_file ->
  σ !! tempdir = Some Dir ->
  (forall p, in_tree td p = true -> σ !! p = None) ->
  σ !! path_join source_dir "control" = Some (File c1) ->
  σ !! path_join source_dir "upgrade" = Some (File c2) ->
  σ !! path_join source_dir "changelog" = Some (File c3) ->
  initial_state (provisioning ts) = Ok s0 ->
  final_state (provisioning ts) = Ok s1 ->
  no_newline testbed_location ->
  exists σ',
    prepare_test_environment_yield ts rnd_dir rnd_file σ =
      (Ok ({| run_config_file := td ++ "/" ++ "tmp" ++ rnd_file;
              testrun_tmp_dir := td; unbuilt_dir := td |}, td), σ') /\
    σ' !! td = Some Dir /\
    σ' !! (td ++ "/" ++ "tmp" ++ rnd_file) =
      Some (File (run_config_text testbed_location
                    (join " " (pre_upgrade_scripts ts)) (join " " (post_upgrade_tests ts))
                    (py_str s0) (py_str s1))) /\
    σ' !! (td ++ "/debian") = Some Dir /\
    σ' !! (td ++ "/debian/tests") = Some Dir /\
    σ' !! (td ++ "/debian/control") = Some (File "") /\
    σ' !! (td ++ "/debian/changelog") = Some (File c3) /\
    σ' !! (td ++ "/debian/tests/control") = Some (File c1) /\
    σ' !! (td ++ "/debian/tests/upgrade") = Some (File c2).
Proof.
  intros td Hr1 Hr2 Htmp Hfresh Hc1 Hc2 Hc3 Hs0 Hs1 Hloc.
  destruct (path_join_tmp_normal tempdir rnd_dir Hr1) as [Hne He]. fold td in Hne, He.
  assert (HNtd : σ !! td = None) by (apply Hfresh, in_tree_self).
  unfold prepare_test_environment_yield.
  rewrite (mkdtemp_fresh rnd_dir σ Htmp HNtd). fold td.
  clearbody td.
  assert (Hfresh' : forall p, path_inside td p = true -> <[td := Dir]> σ !! p = None).
  { intros p Hp. rewrite lookup_insert_ne.
    - apply Hfresh, in_tree_inside, Hp.
    - intros ->. unfold path_inside in Hp.
      apply andb_true_iff in Hp as [_ Hp]. apply Nat.ltb_lt in Hp.
      unfold dir_prefix in Hp. rewrite He, length_append in Hp. lia. }
  rewrite (setup_steps_run ts td rnd_file (<[td := Dir]> σ) s0 s1 c1 c2 c3
             Hne He Hr2 (lookup_insert_eq _ _ _) Hfresh'
             ltac:(fs_lookup) ltac:(fs_lookup) ltac:(fs_lookup) Hs0 Hs1 Hloc).
  eexists. split; [reflexivity |].
  assert (HD : td ++ "/debian" = td ++ "/" ++ "debian") by reflexivity.
  assert (HT : td ++ "/debian/tests" = (td ++ "/" ++ "debian") ++ "/" ++ "tests")
    by (rewrite append_assoc; reflexivity).
  assert (HDC : td ++ "/debian/control" = (td ++ "/" ++ "debian") ++ "/" ++ "control")
    by (rewrite append_assoc; reflexivity).
  assert (HDL : td ++ "/debian/changelog" = (td ++ "/" ++ "debian") ++ "/" ++ "changelog")
    by (rewrite append_assoc; reflexivity).
  assert (HTC : td ++ "/debian/tests/control"
                = ((td ++ "/" ++ "debian") ++ "/" ++ "tests") ++ "/" ++ "control")
    by (rewrite !append_assoc; reflexivity).
  assert (HTU : td ++ "/debian/tests/upgrade"
                = ((td ++ "/" ++ "debian") ++ "/" ++ "tests") ++ "/" ++ "upgrade")
    by (rewrite !append_assoc; reflexivity).
  rewrite HD, HT, HDC, HDL, HTC, HTU.
  repeat split; fs_lookup.
Qed.

(** ** The sample host *)

Lemma sample_fs_fresh (p : string) :
  in_tree "/tmp/tmpabcd1234" p = true -> sample_fs !! p = None.
Proof.
  intros Hp. unfold sample_fs.
  repeat (rewrite lookup_insert_ne; [| intros <-; vm_compute in Hp; discriminate Hp]).
  apply lookup_empty.
Qed.

Lemma sample_fs_tmp : sample_fs !! "/tmp" = Some Dir.
Proof. unfold sample_fs. apply lookup_insert_eq. Qed.

Lemma sample_fs_control :
  sample_fs !! "/usr/lib/upgrade_testing/data/control" = Some (File "Tests: upgrade").
Proof.
  unfold sample_fs. rewrite lookup_insert_ne by discriminate. apply lookup_insert_eq.
Qed.

Lemma sample_fs_upgrade :
  sample_fs !! "/usr/lib/upgrade_testing/data/upgrade" = Some (File "#!/bin/sh").
Proof.
  unfold sample_fs. do 2 (rewrite lookup_insert_ne by discriminate). apply lookup_insert_eq.
Qed.

Lemma sample_fs_changelog :
  sample_fs !! "/usr/lib/upgrade_testing/data/changelog" = Some (File "upgrade-testing (1)").
Proof.
  unfold sample_fs. do 3 (rewrite lookup_insert_ne by discriminate). apply lookup_insert_eq.
Qed.

(** On the sample host the preparation reaches its [yield], whatever the
    script names of the test specification are. *)
Lemma sample_host_yields (ts : @TestSpecification accepting_backends) (s0 s1 : pyval) :
  initial_state (provisioning ts) = Ok s0 ->
  final_state (provisioning ts) = Ok s1 ->
  exists σ',
    prepare_test_environment_yield (H := accepting_backends) (H0 := sample_host)
      ts "abcd1234" "efgh5678" sample_fs =
      (Ok ({| run_config_file := "/tmp/tmpabcd1234/tmpefgh5678";
              testrun_tmp_dir := "/tmp/tmpabcd1234";
              unbuilt_dir := "/tmp/tmpabcd1234" |}, "/tmp/tmpabcd1234"), σ') /\
    σ' !! "/tmp/tmpabcd1234/tmpefgh5678" =
      Some (File (run_config_text "/var/tmp/ubuntu-upgrade-testing"
                    (join " " (pre_upgrade_scripts ts)) (join " " (post_upgrade_tests ts))
                    (py_str s0) (py_str s1))) /\
    σ' !! "/tmp/tmpabcd1234/debian/tests/upgrade" = Some (File "#!/bin/sh") /\
    σ' !! "/tmp/tmpabcd1234" = Some Dir.
Proof.
  intros Hs0 Hs1.
  destruct (yield_run (H := accepting_backends) (H0 := sample_host)
              ts "abcd1234" "efgh5678" sample_fs s0 s1
              "Tests: upgrade" "#!/bin/sh" "upgrade-testing (1)"
              eq_refl eq_refl sample_fs_tmp sample_fs_fresh
              sample_fs_control sample_fs_upgrade sample_fs_changelog
              Hs0 Hs1 eq_refl)
    as (σ' & Hy & Hdir & Hfile & _ & _ & _ & _ & _ & Hup).
  exists σ'. split; [exact Hy |]. split; [exact Hfile |]. split; [exact Hup | exact Hdir].
Qed.

Lemma yielded_paths_witness :
  exists σ' : gmap string node,
    σ' !! "/tmp/tmpabcd1234" = Some Dir /\
    path_inside "/tmp/tmpabcd1234" "/tmp/tmpabcd1234/tmpefgh5678" = true.
Proof.
  destruct (sample_host_yields sample_testsuite (PStr "14.04") (PStr "16.04") eq_refl eq_refl)
    as (σ' & Hy & _).
  exists σ'.
  destruct (yielded_paths (H := accepting_backends) (H0 := sample_host)
              sample_testsuite "abcd1234" "efgh5678" sample_fs σ' _ _ Hy)
    as (_ & _ & _ & Hdir & Hin).
  split; [exact Hdir | exact Hin].
Defined.


(** C7, as stated, fails.  With a pre-upgrade script whose name holds a
    double quote, the preparation goes through and a shell that sources the
    run configuration makes seven assignments, [EXTRA] among them, and
    [PRE_TESTS_TO_RUN] is not the joined script names. *)
Lemma run_config_counterexample :
  exists files td σ' content vars,
    prepare_test_environment_yield (H := accepting_backends) (H0 := sample_host)
      quote_testsuite "abcd1234" "efgh5678" sample_fs = (Ok (files, td), σ') /\
    σ' !! run_config_file files = Some (File content) /\
    sh_source content = Some vars /\
    map fst vars =
      ["PRE_TEST_LOCATION"; "POST_TEST_LOCATION"; "PRE_TESTS_TO_RUN"; "EXTRA";
       "POST_TESTS_TO_RUN"; "INITIAL_SYSTEM_STATE"; "POST_SYSTEM_STATE"] /\
    map fst vars <> run_config_names /\
    In ("PRE_TESTS_TO_RUN", "a") vars /\ In ("EXTRA", "b") vars /\
    ~ In ("PRE_TESTS_TO_RUN", join " " (pre_upgrade_scripts quote_testsuite)) vars.
Proof.
  destruct (sample_host_yields quote_testsuite (PStr "14.04") (PStr "16.04") eq_refl eq_refl)
    as (σ' & Hy & Hfile & _).
  eexists _, _, σ', _, _. split; [exact Hy |]. split; [exact Hfile |].
  split; [vm_compute; reflexivity |].
  split; [reflexivity |].
  split; [discriminate |].
  split; [right; right; left; reflexivity |].
  split; [right; right; right; left; reflexivity |].
  intros Hin. vm_compute in Hin.
  repeat (destruct Hin as [Hin|Hin]; [discriminate |]). exact Hin.
Qed.

(** * Further properties of the provisioning specifications *)

Lemma lxc_init_no_releases `{Backends} (cfg : list (string * pyval)) :
  dict_lookup "releases" cfg = None ->
  LXCProvisionSpecification_init (PDict cfg) = Raise (KeyError (PStr "releases")).
Proof.
  intros HR. unfold LXCProvisionSpecification_init, py_get, getitem_key.
  rewrite HR. destruct (dict_lookup "distribution" cfg); reflexivity.
Qed.

(** X1.  A Container mapping without [releases] is rejected with the
    [KeyError] of the subscription itself: unlike the Device constructor,
    the Container constructor does not turn it into a [ValueError]. *)
Theorem lxc_missing_releases `{Backends} (cfg : list (string * pyval)) :
  dict_lookup "releases" cfg = None ->
  LXCProvisionSpecification_init (PDict cfg) = Raise (KeyError (PStr "releases")).
Proof.
  intros HR. unfold LXCProvisionSpecification_init.
  assert (Hget : exists d, py_get (PDict cfg) "distribution" (PStr "ubuntu") = Ok d)
    by (unfold py_get; destruct (dict_lookup "distribution" cfg); eauto).
  destruct Hget as [d ->].
  unfold getitem_key. rewrite HR. reflexivity.
Qed.

Lemma lxc_missing_releases_witness :
  LXCProvisionSpecification_init (H := accepting_backends)
    (PDict [("backend", PStr "lxc"); ("distribution", PStr "debian")])
  = Raise (KeyError (PStr "releases")).
Proof.
  apply (lxc_missing_releases (H := accepting_backends)
           [("backend", PStr "lxc"); ("distribution", PStr "debian")]).
  reflexivity.
Defined.

(** X2.  A configuration that is no mapping at all leaves the
    constructors as the exception of the first operation on it: the
    [AttributeError] of [.get] for the Container variant, and for the Device
    variant the [TypeError] of the subscription, which the [except KeyError]
    clause lets pass. *)
Theorem constructors_on_non_mapping `{Backends} (v : pyval) :
  (forall d, v <> PDict d) ->
  LXCProvisionSpecification_init v = Raise AttributeError /\
  DeviceProvisionSpecification_init v = Raise TypeError.
Proof.
  intros Hv. destruct v; try (split; reflexivity). exfalso. eapply Hv. reflexivity.
Qed.

Lemma constructors_on_non_mapping_witness :
  LXCProvisionSpecification_init (H := accepting_backends) (PList [PStr "14.04"])
    = Raise AttributeError /\
  DeviceProvisionSpecification_init (H := accepting_backends) (PList [PStr "14.04"])
    = Raise TypeError.
Proof.
  apply (constructors_on_non_mapping (H := accepting_backends) (PList [PStr "14.04"])).
  intros d. discriminate.
Defined.

(** X3.  The factory does not guard its own lookups: a test definition
    without [provisioning], and a provisioning mapping without [backend],
    raise the [KeyError] for that key. *)
Theorem factory_missing_keys `{Backends} (m : list (string * pyval)) :
  (dict_lookup "provisioning" m = None ->
   from_testspec (PDict m) = Raise (KeyError (PStr "provisioning"))) /\
  (forall p, dict_lookup "provisioning" m = Some (PDict p) ->
             dict_lookup "backend" p = None ->
             from_testspec (PDict m) = Raise (KeyError (PStr "backend"))) /\
  (dict_lookup "backend" m = None ->
   from_provisionspec (PDict m) = Raise (KeyError (PStr "backend"))).
Proof.
  split; [| split].
  - intros Hp. unfold from_testspec, getitem_key. rewrite Hp. reflexivity.
  - intros p Hp Hb. unfold from_testspec, getitem_key.
    rewrite Hp. cbv beta iota delta [mbind result_bind]. rewrite Hb. reflexivity.
  - intros Hb. unfold from_provisionspec, getitem_key. rewrite Hb. reflexivity.
Qed.

Lemma factory_missing_keys_witness :
  from_testspec (H := accepting_backends) (PDict [("name", PStr "demo")])
    = Raise (KeyError (PStr "provisioning")) /\
  from_testspec (H := accepting_backends)
    (PDict [("provisioning", PDict [("releases", PList [PStr "14.04"])])])
    = Raise (KeyError (PStr "backend")) /\
  from_provisionspec (H := accepting_backends) (PDict [("releases", PList [PStr "14.04"])])
    = Raise (KeyError (PStr "backend")).
Proof.
  split; [| split].
  - exact (proj1 (factory_missing_keys (H := accepting_backends)
                    [("name", PStr "demo")]) eq_refl).
  - exact (proj1 (proj2 (factory_missing_keys (H := accepting_backends)
                    [("provisioning", PDict [("releases", PList [PStr "14.04"])])]))
             [("releases", PList [PStr "14.04"])] eq_refl eq_refl).
  - exact (proj2 (proj2 (factory_missing_keys (H := accepting_backends)
                    [("releases", PList [PStr "14.04"])])) eq_refl).
Defined.

Lemma spec_type_inv (name : pyval) (t : spec_type) :
  get_specification_type name = Ok t ->
  name = PStr (match t with LXCType => "lxc" | DeviceType => "device" end).
Proof.
  unfold get_specification_type. destruct name; try discriminate.
  destruct (String.eqb_spec s "lxc") as [->|_].
  - intros E. injection E as <-. reflexivity.
  - destruct (String.eqb_spec s "device") as [->|_]; [| discriminate].
    intros E. injection E as <-. reflexivity.
Qed.

Lemma lxc_init_inv `{Backends} (v : pyval) (s : LXCProvisionSpecification) :
  LXCProvisionSpecification_init v = Ok s ->
  exists cfg i,
    v = PDict cfg /\
    dict_lookup "releases" cfg = Some (lxc_releases s) /\
    lxc_distribution s = default (PStr "ubuntu") (dict_lookup "distribution" cfg) /\
    initial_state s = Ok i /\
    LXCBackend i (lxc_distribution s) = Ok (lxc_backend s).
Proof.
  intros Hs. destruct v as [| | | | |cfg]; try discriminate.
  destruct (dict_lookup "releases" cfg) as [R|] eqn:HR.
  2:{ rewrite (lxc_init_no_releases cfg HR) in Hs. discriminate. }
  rewrite (lxc_init_dict cfg R HR) in Hs.
  destruct (lxc_initial_state R) as [i|] eqn:Hi; [| discriminate].
  run_result.
  destruct (LXCBackend i _) as [b|] eqn:Hb; [| discriminate].
  injection Hs as <-. exists cfg, i. simpl. auto.
Qed.

Lemma dev_init_inv `{Backends} (v : pyval) (s : DeviceProvisionSpecification) :
  DeviceProvisionSpecification_init v = Ok s ->
  exists cfg i,
    v = PDict cfg /\
    dict_lookup "channel" cfg = Some (dev_channel s) /\
    dict_lookup "revisions" cfg = Some (dev_revisions s) /\
    initial_state s = Ok i /\
    DeviceBackend (dev_channel s) i
      (default PNone (dict_lookup "password" cfg))
      (default PNone (dict_lookup "serial" cfg)) = Ok (dev_backend s).
Proof.
  intros Hs. destruct v as [| | | | |cfg]; try discriminate.
  destruct (dict_lookup "channel" cfg) as [C|] eqn:HC.
  2:{ rewrite (dev_init_missing cfg (or_introl HC)) in Hs. discriminate. }
  destruct (dict_lookup "revisions" cfg) as [V|] eqn:HV.
  2:{ rewrite (dev_init_missing cfg (or_intror HV)) in Hs. discriminate. }
  rewrite (dev_init_dict cfg C V HC HV) in Hs.
  destruct (dev_initial_state C V) as [i|] eqn:Hi; [| discriminate].
  run_result.
  destruct (DeviceBackend C i _ _) as [b|] eqn:Hb; [| discriminate].
  injection Hs as <-. exists cfg, i. simpl. auto.
Qed.

(** X4.  What [from_provisionspec] returns is determined by the mapping:
    a Container specification only for backend [lxc], a Device
    specification only for backend [device]; its attributes are the entries
    of the mapping (the distribution [ubuntu] when there is none), and its
    backend handle is the one the backend constructor returned for the
    initial state. *)
Theorem from_provisionspec_inv `{Backends} (v : pyval) (spec : ProvisionSpecification) :
  from_provisionspec v = Ok spec ->
  exists cfg i,
    v = PDict cfg /\ initial_state spec = Ok i /\
    match spec with
    | LXCSpec s =>
        dict_lookup "backend" cfg = Some (PStr "lxc") /\
        dict_lookup "releases" cfg = Some (lxc_releases s) /\
        lxc_distribution s = default (PStr "ubuntu") (dict_lookup "distribution" cfg) /\
        LXCBackend i (lxc_distribution s) = Ok (lxc_backend s)
    | DeviceSpec s =>
        dict_lookup "backend" cfg = Some (PStr "device") /\
        dict_lookup "channel" cfg = Some (dev_channel s) /\
        dict_lookup "revisions" cfg = Some (dev_revisions s) /\
        DeviceBackend (dev_channel s) i
          (default PNone (dict_lookup "password" cfg))
          (default PNone (dict_lookup "serial" cfg)) = Ok (dev_backend s)
    end.
Proof.
  unfold from_provisionspec. intros Hs.
  destruct (getitem_key v "backend") as [name|] eqn:Hname; [| discriminate].
  cbv beta iota delta [mbind result_bind] in Hs.
  destruct (get_specification_type name) as [t|] eqn:Ht; [| discriminate].
  apply spec_type_inv in Ht. subst name.
  assert (Hback : forall cfg, v = PDict cfg ->
            dict_lookup "backend" cfg
            = Some (PStr (match t with LXCType => "lxc" | DeviceType => "device" end))).
  { intros cfg ->. unfold getitem_key in Hname.
    destruct (dict_lookup "backend" cfg); [congruence | discriminate]. }
  destruct t; unfold construct in Hs; run_result.
  - destruct (LXCProvisionSpecification_init v) as [s|] eqn:Hinit; [| discriminate].
    injection Hs as <-.
    destruct (lxc_init_inv v s Hinit) as (cfg & i & -> & HR & HD & Hi & Hb).
    exists cfg, i. repeat split; auto.
  - destruct (DeviceProvisionSpecification_init v) as [s|] eqn:Hinit; [| discriminate].
    injection Hs as <-.
    destruct (dev_init_inv v s Hinit) as (cfg & i & -> & HC & HV & Hi & Hb).
    exists cfg, i. repeat split; auto.
Qed.

Lemma from_provisionspec_inv_witness :
  exists spec cfg i,
    from_provisionspec (H := accepting_backends) sample_device_config = Ok spec /\
    sample_device_config = PDict cfg /\ initial_state spec = Ok i /\
    match spec with
    | LXCSpec s => dict_lookup "backend" cfg = Some (PStr "lxc")
    | DeviceSpec s => dict_lookup "backend" cfg = Some (PStr "device")
    end.
Proof.
  eexists.
  destruct (from_provisionspec_inv (H := accepting_backends) sample_device_config _ eq_refl)
    as (cfg & i & Hv & Hi & Hm).
  exists cfg, i. split; [reflexivity |]. split; [exact Hv |]. split; [exact Hi |].
  exact (proj1 Hm).
Defined.

(** X5.  An exception of the backend constructor leaves the factory
    unchanged: for either backend, when the mapping holds its fields and the
    initial state is defined, [from_provisionspec] raises exactly what the
    backend constructor raised for that state. *)
Theorem backend_failure_propagates `{Backends}
    (cfg : list (string * pyval)) (i : pyval) (e : exn) :
  (forall R,
     dict_lookup "backend" cfg = Some (PStr "lxc") ->
     dict_lookup "releases" cfg = Some R ->
     getitem_idx R 0 = Ok i ->
     LXCBackend i (default (PStr "ubuntu") (dict_lookup "distribution" cfg)) = Raise e ->
     from_provisionspec (PDict cfg) = Raise e) /\
  (forall C V r,
     dict_lookup "backend" cfg = Some (PStr "device") ->
     dict_lookup "channel" cfg = Some C ->
     dict_lookup "revisions" cfg = Some V ->
     getitem_idx V 0 = Ok r ->
     i = _construct_state_string C r ->
     DeviceBackend C i
       (default PNone (dict_lookup "password" cfg))
       (default PNone (dict_lookup "serial" cfg)) = Raise e ->
     from_provisionspec (PDict cfg) = Raise e).
Proof.
  split.
  - intros R Hb HR Hi He. unfold from_provisionspec, getitem_key. rewrite Hb.
    cbv beta iota delta [mbind result_bind]. simpl get_specification_type. cbv iota.
    unfold construct. rewrite (lxc_init_dict cfg R HR).
    unfold lxc_initial_state. rewrite Hi. run_result. rewrite He. reflexivity.
  - intros C V r Hb HC HV Hr Hi He. unfold from_provisionspec, getitem_key. rewrite Hb.
    cbv beta iota delta [mbind result_bind]. simpl get_specification_type. cbv iota.
    unfold construct. rewrite (dev_init_dict cfg C V HC HV).
    unfold dev_initial_state. rewrite Hr. run_result. rewrite <- Hi, He. reflexivity.
Qed.

Lemma backend_failure_propagates_witness :
  from_provisionspec (H := rejecting_backends) sample_lxc_config = Raise (BackendError 1) /\
  from_provisionspec (H := rejecting_backends) sample_device_config = Raise (BackendError 2).
Proof.
  split.
  - exact (proj1 (backend_failure_propagates (H := rejecting_backends)
                    [("backend", PStr "lxc"); ("releases", PList [PStr "14.04"; PStr "16.04"])]
                    (PStr "14.04") (BackendError 1))
             _ eq_refl eq_refl eq_refl eq_refl).
  - exact (proj2 (backend_failure_propagates (H := rejecting_backends)
                    [("backend", PStr "device"); ("channel", PStr "stable");
                     ("revisions", PList [PInt 1; PInt 2; PInt 3])]
                    (PStr "stable:1") (BackendError 2))
             _ _ _ eq_refl eq_refl eq_refl eq_refl eq_refl eq_refl).
Defined.

(** ** Values that are sequences without being lists *)

Lemma str_chars_head (c : ascii) (s : string) :
  head (str_chars (String c s)) = Some (PStr (String c "")).
Proof. reflexivity. Qed.

Lemma str_chars_last (s : string) (cl : ascii) :
  last (list_ascii_of_string s) = Some cl ->
  last (str_chars s) = Some (PStr (String cl "")).
Proof. intros Hl. unfold str_chars. rewrite last_map, Hl. reflexivity. Qed.

(** X6.  A [releases] entry that is a non-empty string, not a list of
    strings, is not rejected: the Container specification is built, its
    [initial_state] is the first character of the string and its
    [final_state] the last one, while [system_states] is the string
    itself. *)
Theorem lxc_string_releases `{Backends}
    (cfg : list (string * pyval)) (c cl : ascii) (s : string) (b : Backend) :
  dict_lookup "releases" cfg = Some (PStr (String c s)) ->
  last (list_ascii_of_string (String c s)) = Some cl ->
  LXCBackend (PStr (String c "")) (default (PStr "ubuntu") (dict_lookup "distribution" cfg))
    = Ok b ->
  exists spec,
    LXCProvisionSpecification_init (PDict cfg) = Ok spec /\
    system_states spec = Ok (PStr (String c s)) /\
    initial_state spec = Ok (PStr (String c "")) /\
    final_state spec = Ok (PStr (String cl "")).
Proof.
  intros HR Hl Hb.
  assert (H0 : lxc_initial_state (PStr (String c s)) = Ok (PStr (String c ""))).
  { unfold lxc_initial_state, getitem_idx.
    change (str_chars (String c s))
      with (PStr (String c "") :: str_chars s).
    apply seq_index_first. }
  eexists. split.
  - rewrite (lxc_init_dict cfg _ HR), H0. run_result. rewrite Hb. reflexivity.
  - simpl. split; [reflexivity |]. split; [exact H0 |].
    unfold lxc_final_state, getitem_idx.
    apply seq_index_last, str_chars_last, Hl.
Qed.

Lemma lxc_string_releases_witness :
  exists spec,
    LXCProvisionSpecification_init (H := accepting_backends)
      (PDict [("backend", PStr "lxc"); ("releases", PStr "trusty")]) = Ok spec /\
    system_states spec = Ok (PStr "trusty") /\
    initial_state spec = Ok (PStr "t") /\
    final_state spec = Ok (PStr "y").
Proof.
  apply (lxc_string_releases (H := accepting_backends)
           [("backend", PStr "lxc"); ("releases", PStr "trusty")]
           "t"%char "y"%char "rusty" tt).
  - reflexivity.
  - reflexivity.
  - reflexivity.
Defined.

(** ** State strings *)

Lemma construct_state_string_inj (channel r1 r2 : pyval) :
  _construct_state_string channel r1 = _construct_state_string channel r2 ->
  py_str r1 = py_str r2.
Proof.
  unfold _construct_state_string. intros E. injection E as E.
  apply (inj (String.append _)) in E. simpl in E. injection E as E. exact E.
Qed.

(** X7.  The states of a Device specification follow its revisions one
    for one: there are as many states as revisions, two revisions give the
    same state exactly when they print the same, and so revisions that all
    print differently give states without a duplicate. *)
Theorem device_states_distinct (channel : pyval) (V : list pyval) :
  exists S,
    dev_system_states channel (PList V) = Ok (PList S) /\
    length S = length V /\
    (forall r1 r2,
       _construct_state_string channel r1 = _construct_state_string channel r2
       <-> py_str r1 = py_str r2) /\
    (NoDup (map py_str V) -> NoDup S).
Proof.
  exists (map (_construct_state_string channel) V).
  split; [reflexivity |]. split; [apply length_map |]. split.
  - intros r1 r2. split; [apply construct_state_string_inj |].
    unfold _construct_state_string. intros ->. reflexivity.
  - induction V as [|v V IH]; simpl; intros Hnd; [constructor |].
    apply NoDup_cons in Hnd as [Hnotin Hnd].
    apply NoDup_cons. split; [| exact (IH Hnd)].
    intros Hin. apply Hnotin.
    apply list_elem_of_fmap in Hin as (r & Hr & Hin).
    apply construct_state_string_inj in Hr. rewrite Hr.
    apply list_elem_of_fmap. exists r. split; [reflexivity | exact Hin].
Qed.

Lemma device_states_distinct_witness :
  exists S,
    dev_system_states (PStr "stable") (PList [PInt 1; PInt 2; PStr "3"]) = Ok (PList S) /\
    length S = 3%nat /\ NoDup S.
Proof.
  destruct (device_states_distinct (PStr "stable") [PInt 1; PInt 2; PStr "3"])
    as (S & HS & Hlen & _ & Hnd).
  exists S. split; [exact HS |]. split; [exact Hlen |].
  apply Hnd. apply (bool_decide_unpack _). vm_compute. exact I.
Defined.

(** * Further properties of the host preparation *)

Lemma mkdtemp_raise_state `{HostEnv} (rnd : string) (σ σ1 : gmap string node) (e : exn) :
  mkdtemp rnd σ = (Raise e, σ1) -> σ1 = σ.
Proof.
  unfold mkdtemp, bindM, dir_ok. intros Hmk.
  repeat case_match; simplify_eq; reflexivity.
Qed.

(** X8.  When [mkdtemp] itself raises, the [finally] clause finds
    [temp_dir] unbound: the [with] statement raises [UnboundLocalError] in
    place of the error of [mkdtemp], the scope is not entered and the file
    system is as it was. *)
Theorem mkdtemp_failure_masked `{Backends} `{HostEnv} {A : Type}
    (ts : TestSpecification) (rnd_dir rnd_file : string)
    (scope : TestrunTempFiles -> M A)
    (σ σ1 : gmap string node) (e : exn) :
  mkdtemp rnd_dir σ = (Raise e, σ1) ->
  prepare_test_environment ts rnd_dir rnd_file scope σ = (Raise UnboundLocalError, σ).
Proof.
  intros Hmk. pose proof (mkdtemp_raise_state _ _ _ _ Hmk) as ->.
  unfold prepare_test_environment, prepare_test_environment_yield.
  rewrite Hmk. reflexivity.
Qed.

Lemma mkdtemp_failure_masked_witness :
  prepare_test_environment (H := accepting_backends) (H0 := sample_host)
    sample_testsuite "abcd1234" "efgh5678" failing_scope empty_fs
  = (Raise UnboundLocalError, empty_fs).
Proof.
  apply (mkdtemp_failure_masked (H := accepting_backends) (H0 := sample_host)
           sample_testsuite "abcd1234" "efgh5678" failing_scope
           empty_fs empty_fs (FileNotFoundError "/tmp")).
  reflexivity.
Defined.

(** X9.  The clean-up is not guarded: when the scope returns or raises
    with the temporary directory gone, the [with] statement raises the
    [FileNotFoundError] of [rmtree], and [NotADirectoryError] when a file
    took the directory's place, whatever the scope's own outcome was. *)
Theorem cleanup_failure_masks `{Backends} `{HostEnv} {A : Type}
    (ts : TestSpecification) (rnd_dir rnd_file : string)
    (scope : TestrunTempFiles -> M A)
    (σ σ1 σ2 : gmap string node) (files : TestrunTempFiles) (td : path)
    (outcome : result A) :
  prepare_test_environment_yield ts rnd_dir rnd_file σ = (Ok (files, td), σ1) ->
  scope files σ1 = (outcome, σ2) ->
  (σ2 !! td = None ->
   prepare_test_environment ts rnd_dir rnd_file scope σ = (Raise (FileNotFoundError td), σ2)) /\
  (forall c, σ2 !! td = Some (File c) ->
   prepare_test_environment ts rnd_dir rnd_file scope σ = (Raise (NotADirectoryError td), σ2)).
Proof.
  intros Hy Hsc. unfold prepare_test_environment. rewrite Hy, Hsc.
  unfold prepare_test_environment_resume, _cleanup_dir, rmtree.
  split; [intros -> | intros c ->]; reflexivity.
Qed.

Lemma cleanup_failure_masks_witness :
  exists σ2,
    prepare_test_environment (H := accepting_backends) (H0 := sample_host)
      sample_testsuite "abcd1234" "efgh5678" removing_scope sample_fs
    = (Raise (FileNotFoundError "/tmp/tmpabcd1234"), σ2).
Proof.
  destruct (sample_host_yields sample_testsuite (PStr "14.04") (PStr "16.04") eq_refl eq_refl)
    as (σ1 & Hy & _ & _ & Hdir).
  destruct (rmtree_dir "/tmp/tmpabcd1234" σ1 Hdir) as (σ2 & Hrm & Hgone & _).
  exists σ2.
  apply (proj1 (cleanup_failure_masks (H := accepting_backends) (H0 := sample_host)
                  sample_testsuite "abcd1234" "efgh5678" removing_scope
                  sample_fs σ1 σ2 _ "/tmp/tmpabcd1234" (Ok tt) Hy Hrm)).
  apply Hgone. reflexivity.
Defined.

(** ** Nothing is written outside the temporary directory *)

Lemma writes_within_ret (d : path) {A : Type} (a : A) : writes_within d (retM a).
Proof. intros σ p _ _. reflexivity. Qed.

Lemma writes_within_raise (d : path) {A : Type} (e : exn) : writes_within d (raise (A := A) e).
Proof. intros σ p _ _. reflexivity. Qed.

Lemma writes_within_lift (d : path) {A : Type} (r : result A) : writes_within d (lift r).
Proof. intros σ p _ _. reflexivity. Qed.

Lemma writes_within_dir_ok (d q : path) : writes_within d (dir_ok q).
Proof. intros σ p _ _. rewrite dir_ok_state. reflexivity. Qed.

Lemma writes_within_bind (d : path) {A B : Type} (m : M A) (f : A -> M B) :
  keeps_dirs m -> writes_within d m -> (forall a, writes_within d (f a)) ->
  writes_within d (bindM m f).
Proof.
  intros Hk Hm Hf σ p Hd Hp. unfold bindM.
  specialize (Hk σ d Hd). specialize (Hm σ p Hd Hp).
  destruct (m σ) as [[a|e] σ']; simpl in *; [| exact Hm].
  rewrite (Hf a σ' p Hk Hp). exact Hm.
Qed.

Lemma lookup_insert_outside (d q p : path) (n : node) (σ : gmap string node) :
  in_tree d q = true -> in_tree d p = false -> <[q := n]> σ !! p = σ !! p.
Proof. intros Hq Hp. apply lookup_insert_ne. congruence. Qed.

Lemma writes_within_mkdir (d q : path) : in_tree d q = true -> writes_within d (mkdir q).
Proof.
  intros Hq. apply writes_within_bind;
    [apply keeps_dirs_dir_ok | apply writes_within_dir_ok |].
  intros _ σ p _ Hp. destruct (σ !! q); simpl; [reflexivity |].
  apply (lookup_insert_outside d); assumption.
Qed.

Lemma writes_within_read_file (d q : path) : writes_within d (read_file q).
Proof. intros σ p _ _. unfold read_file. repeat case_match; reflexivity. Qed.

Lemma writes_within_open_truncate (d q : path) :
  in_tree d q = true -> writes_within d (open_truncate q).
Proof.
  intros Hq. apply writes_within_bind;
    [apply keeps_dirs_dir_ok | apply writes_within_dir_ok |].
  intros _ σ p _ Hp. destruct (σ !! q) as [[|c]|]; simpl; [reflexivity | |];
    apply (lookup_insert_outside d); assumption.
Qed.

Lemma writes_within_open_append_close (d q : path) :
  in_tree d q = true -> writes_within d (open_append_close q).
Proof.
  intros Hq. apply writes_within_bind;
    [apply keeps_dirs_dir_ok | apply writes_within_dir_ok |].
  intros _ σ p _ Hp. destruct (σ !! q) as [[|c]|]; simpl; [reflexivity | reflexivity |].
  apply (lookup_insert_outside d); assumption.
Qed.

Lemma writes_within_file_write (d q : path) (text : string) :
  in_tree d q = true -> writes_within d (file_write q text).
Proof.
  intros Hq σ p _ Hp. unfold file_write.
  destruct (σ !! q) as [[|c]|]; simpl; [reflexivity | | reflexivity].
  apply (lookup_insert_outside d); assumption.
Qed.

Lemma writes_within_copyfile (d src dst : path) :
  in_tree d dst = true -> writes_within d (copyfile src dst).
Proof.
  intros Hq σ p Hd Hp. unfold copyfile.
  destruct (String.eqb src dst && bool_decide (is_Some (σ !! src))); [reflexivity |].
  revert σ p Hd Hp.
  apply writes_within_bind;
    [apply keeps_dirs_read_file | apply writes_within_read_file | intros c].
  apply writes_within_bind;
    [apply keeps_dirs_open_truncate | apply writes_within_open_truncate, Hq | intros _].
  apply writes_within_file_write, Hq.
Qed.

Lemma writes_within_mkstemp (d : path) (rnd : string) :
  d <> "" -> writes_within d (mkstemp d rnd).
Proof.
  intros Hne.
  assert (Hq : in_tree d (path_join d ("tmp" ++ rnd)) = true)
    by (apply in_tree_inside, path_inside_join; [exact Hne | reflexivity | discriminate]).
  apply writes_within_bind;
    [apply keeps_dirs_dir_ok | apply writes_within_dir_ok |].
  intros _ σ p _ Hp. destruct (σ !! path_join d ("tmp" ++ rnd)); simpl; [reflexivity |].
  apply (lookup_insert_outside d); assumption.
Qed.

Lemma writes_within_bind_val (d : path) {A B : Type} (m : M A) (f : A -> M B)
    (P : A -> Prop) :
  keeps_dirs m -> writes_within d m ->
  (forall σ a σ', m σ = (Ok a, σ') -> P a) ->
  (forall a, P a -> writes_within d (f a)) ->
  writes_within d (bindM m f).
Proof.
  intros Hk Hm HP Hf σ p Hd Hp. unfold bindM.
  specialize (Hk σ d Hd). specialize (Hm σ p Hd Hp). specialize (HP σ).
  destruct (m σ) as [[a|e] σ']; simpl in *; [| exact Hm].
  rewrite (Hf a (HP a σ' eq_refl) σ' p Hk Hp). exact Hm.
Qed.

Lemma mkstemp_path (dir : path) (rnd : string) (σ σ' : gmap string node) (file : path) :
  mkstemp dir rnd σ = (Ok file, σ') -> file = path_join dir ("tmp" ++ rnd).
Proof.
  unfold mkstemp, bindM. intros Hm.
  repeat (case_match; try discriminate). simplify_eq. reflexivity.
Qed.

Lemma writes_within_write_run_config `{Backends} `{HostEnv}
    (ts : TestSpecification) (d : path) (rnd : string) :
  d <> "" -> writes_within d (_write_run_config ts d rnd).
Proof.
  intros Hne. unfold _write_run_config.
  assert (Hq : in_tree d (path_join d ("tmp" ++ rnd)) = true)
    by (apply in_tree_inside, path_inside_join; [exact Hne | reflexivity | discriminate]).
  apply (writes_within_bind_val d _ _ (fun file => file = path_join d ("tmp" ++ rnd)));
    [apply keeps_dirs_mkstemp | apply writes_within_mkstemp, Hne
    | intros σ a σ'; apply mkstemp_path |].
  intros file ->. cbv zeta.
  repeat first
    [ apply writes_within_open_truncate, Hq
    | apply writes_within_file_write, Hq
    | apply writes_within_lift | apply writes_within_ret
    | apply keeps_dirs_open_truncate | apply keeps_dirs_file_write
    | apply keeps_dirs_lift
    | apply writes_within_bind; [| | intros ?] ].
Qed.

Lemma writes_within_makedirs_two (d a b : string) :
  d <> "" -> ends_with_slash d = false ->
  a <> "" -> slash_free a -> b <> "" -> slash_free b -> b <> "." ->
  writes_within d (makedirs ((d ++ "/" ++ a) ++ "/" ++ b)).
Proof.
  intros Hd He Ha Hsa Hb Hsb Hdot σ p Hdir Hp.
  pose proof (child_nonempty d a) as HD.
  pose proof (ends_with_slash_child d a Ha Hsa) as HDe.
  assert (Hsplit2 : path_split ((d ++ "/" ++ a) ++ "/" ++ b) = (d ++ "/" ++ a, b))
    by (apply path_split_child; assumption).
  assert (Hsplit1 : path_split (d ++ "/" ++ a) = (d, a))
    by (apply path_split_child; assumption).
  assert (Hb' : String.eqb b "" = false) by (apply String.eqb_neq; exact Hb).
  assert (Ha' : String.eqb a "" = false) by (apply String.eqb_neq; exact Ha).
  assert (HD' : String.eqb (d ++ "/" ++ a) "" = false) by (apply String.eqb_neq; exact HD).
  assert (Hd' : String.eqb d "" = false) by (apply String.eqb_neq; exact Hd).
  assert (Hdot' : String.eqb b "." = false) by (apply String.eqb_neq; exact Hdot).
  assert (Hex1 : path_exists σ d = true)
    by (unfold path_exists; rewrite Hdir; apply orb_true_r).
  assert (HinD : in_tree d (d ++ "/" ++ a) = true) by (apply in_tree_child; assumption).
  assert (HinT : in_tree d ((d ++ "/" ++ a) ++ "/" ++ b) = true)
    by (apply in_tree_inside, path_inside_grandchild; assumption).
  unfold makedirs.
  destruct (String.length ((d ++ "/" ++ a) ++ "/" ++ b)) as [|n] eqn:Hlen;
    [rewrite !length_append in Hlen; simpl in Hlen; lia |].
  cbn [makedirs_rec].
  rewrite Hsplit2. cbv beta iota. rewrite Hb'. cbv beta iota.
  rewrite Hb', HD'. cbn [negb andb].
  destruct (path_exists σ (d ++ "/" ++ a)); cbn [negb].
  - apply (writes_within_mkdir d _ HinT); assumption.
  - destruct n as [|n]; [rewrite !length_append in Hlen; simpl in Hlen; lia |].
    cbn [makedirs_rec].
    rewrite Hsplit1. cbv beta iota. rewrite Ha'. cbv beta iota.
    rewrite Ha', Hd', Hex1. cbn [negb andb].
    pose proof (writes_within_mkdir d _ HinD σ p Hdir Hp) as H1.
    pose proof (keeps_dirs_mkdir (d ++ "/" ++ a) σ d Hdir) as K1.
    destruct (mkdir (d ++ "/" ++ a) σ) as [[u|e] σ1]; simpl in H1, K1.
    + rewrite Hdot'. rewrite (writes_within_mkdir d _ HinT σ1 p K1 Hp). exact H1.
    + destruct e; try exact H1.
      rewrite Hdot'. rewrite (writes_within_mkdir d _ HinT σ1 p K1 Hp). exact H1.
Qed.

Lemma writes_within_create_autopkg_details `{HostEnv} (d : path) :
  d <> "" -> ends_with_slash d = false ->
  writes_within d (_create_autopkg_details d).
Proof.
  intros Hne He.
  assert (HjD : path_join d "debian" = d ++ "/" ++ "debian")
    by (apply path_join_relative; auto).
  pose proof (child_nonempty d "debian") as HD.
  pose proof (ends_with_slash_child d "debian" ltac:(discriminate) eq_refl) as HDe.
  assert (HjT : path_join (d ++ "/" ++ "debian") "tests" = (d ++ "/" ++ "debian") ++ "/" ++ "tests")
    by (apply path_join_relative; auto).
  pose proof (child_nonempty (d ++ "/" ++ "debian") "tests") as HT.
  pose proof (ends_with_slash_child (d ++ "/" ++ "debian") "tests" ltac:(discriminate) eq_refl)
    as HTe.
  assert (Hin3 : forall x, in_tree d (path_join ((d ++ "/" ++ "debian") ++ "/" ++ "tests") x) = true
                           \/ starts_with_slash x = true \/ x = "").
  { intros x. destruct (starts_with_slash x) eqn:Hx; [auto |].
    destruct (String.eqb_spec x "") as [->|Hxe]; [auto |]. left.
    rewrite path_join_relative by auto.
    rewrite (append_assoc (d ++ "/" ++ "debian")).
    apply in_tree_inside, path_inside_grandchild; assumption. }
  assert (Hin2 : forall x, in_tree d (path_join (d ++ "/" ++ "debian") x) = true
                           \/ starts_with_slash x = true \/ x = "").
  { intros x. destruct (starts_with_slash x) eqn:Hx; [auto |].
    destruct (String.eqb_spec x "") as [->|Hxe]; [auto |]. left.
    rewrite path_join_relative by auto.
    apply in_tree_inside, path_inside_grandchild; assumption. }
  unfold _create_autopkg_details, _copy_file. cbv zeta. rewrite HjD, HjT.
  apply writes_within_bind;
    [apply keeps_dirs_makedirs_rec
    | apply writes_within_makedirs_two; auto; try discriminate; reflexivity | intros _].
  apply writes_within_bind; [apply keeps_dirs_copyfile | | intros _].
  { apply writes_within_copyfile.
    destruct (Hin3 "control") as [Hin|[Hin|Hin]]; [exact Hin | discriminate..]. }
  apply writes_within_bind; [apply keeps_dirs_copyfile | | intros _].
  { apply writes_within_copyfile.
    destruct (Hin3 "upgrade") as [Hin|[Hin|Hin]]; [exact Hin | discriminate..]. }
  apply writes_within_bind; [apply keeps_dirs_copyfile | | intros _].
  { apply writes_within_copyfile.
    destruct (Hin2 "changelog") as [Hin|[Hin|Hin]]; [exact Hin | discriminate..]. }
  apply writes_within_bind; [apply keeps_dirs_open_append_close | | intros _].
  { apply writes_within_open_append_close.
    destruct (Hin2 "control") as [Hin|[Hin|Hin]]; [exact Hin | discriminate..]. }
  apply writes_within_ret.
Qed.

Lemma writes_within_setup_steps `{Backends} `{HostEnv}
    (ts : TestSpecification) (d : path) (rnd : string) :
  d <> "" -> ends_with_slash d = false ->
  writes_within d (setup_steps ts d rnd).
Proof.
  intros Hne He. unfold setup_steps.
  apply writes_within_bind;
    [apply keeps_dirs_write_run_config | apply writes_within_write_run_config, Hne | intros ?].
  apply writes_within_bind;
    [apply keeps_dirs_create_autopkg_details
    | apply writes_within_create_autopkg_details; assumption | intros ?].
  apply writes_within_ret.
Qed.



(** ** What the preparation leaves in the temporary directory *)

(** X11.  With the directory for temporary files in place, nothing yet
    where the new directory goes and the three package data files
    installed, the preparation reaches its [yield].  The temporary directory
    then holds the run configuration, the directories [debian] and
    [debian/tests], an empty [debian/control], and [debian/changelog],
    [debian/tests/control] and [debian/tests/upgrade] with the contents of
    the data files of the same names; every path outside the temporary
    directory is as before. *)
Theorem preparation_yields `{Backends} `{HostEnv}
    (ts : TestSpecification) (rnd_dir rnd_file : string)
    (σ : gmap string node) (s0 s1 : pyval) (c1 c2 c3 : string) :
  let td := path_join tempdir ("tmp" ++ rnd_dir) in
  slash_free rnd_dir -> slash_free rnd_file ->
  σ !! tempdir = Some Dir ->
  (forall p, in_tree td p = true -> σ !! p = None) ->
  σ !! path_join source_dir "control" = Some (File c1) ->
  σ !! path_join source_dir "upgrade" = Some (File c2) ->
  σ !! path_join source_dir "changelog" = Some (File c3) ->
  initial_state (provisioning ts) = Ok s0 ->
  final_state (provisioning ts) = Ok s1 ->
  no_newline testbed_location ->
  exists σ',
    prepare_test_environment_yield ts rnd_dir rnd_file σ =
      (Ok ({| run_config_file := td ++ "/" ++ "tmp" ++ rnd_file;
              testrun_tmp_dir := td; unbuilt_dir := td |}, td), σ') /\
    σ' !! td = Some Dir /\
    σ' !! (td ++ "/" ++ "tmp" ++ rnd_file) =
      Some (File (run_config_text testbed_location
                    (join " " (pre_upgrade_scripts ts)) (join " " (post_upgrade_tests ts))
                    (py_str s0) (py_str s1))) /\
    σ' !! (td ++ "/debian") = Some Dir /\
    σ' !! (td ++ "/debian/tests") = Some Dir /\
    σ' !! (td ++ "/debian/control") = Some (File "") /\
    σ' !! (td ++ "/debian/changelog") = Some (File c3) /\
    σ' !! (td ++ "/debian/tests/control") = Some (File c1) /\
    σ' !! (td ++ "/debian/tests/upgrade") = Some (File c2) /\
    (forall p, in_tree td p = false -> σ' !! p = σ !! p).
Proof.
  intros td Hr1 Hr2 Htmp Hfresh Hc1 Hc2 Hc3 Hs0 Hs1 Hloc.
  destruct (yield_run ts rnd_dir rnd_file σ s0 s1 c1 c2 c3
              Hr1 Hr2 Htmp Hfresh Hc1 Hc2 Hc3 Hs0 Hs1 Hloc)
    as (σ' & Hy & Hdir & Hcfg & HD & HT & HDC & HDL & HTC & HTU).
  fold td in Hy, Hdir, Hcfg, HD, HT, HDC, HDL, HTC, HTU.
  exists σ'. repeat (split; [assumption |]).
  intros p Hp.
  destruct (path_join_tmp_normal tempdir rnd_dir Hr1) as [Hne He]. fold td in Hne, He.
  destruct (yield_inv _ _ _ _ _ _ _ Hy) as (σ1 & Hmk & Hs).
  destruct (mkdtemp_ok _ _ _ _ Hmk) as (_ & Hσ1 & _).
  assert (Hd1 : σ1 !! td = Some Dir) by (rewrite Hσ1; apply lookup_insert_eq).
  pose proof (writes_within_setup_steps ts td rnd_file Hne He σ1 p Hd1 Hp) as Hout.
  rewrite Hs in Hout. simpl in Hout. rewrite Hout, Hσ1.
  apply lookup_insert_ne. intros <-. rewrite in_tree_self in Hp. discriminate.
Qed.

Lemma preparation_yields_witness :
  exists σ',
    prepare_test_environment_yield (H := accepting_backends) (H0 := sample_host)
      sample_testsuite "abcd1234" "efgh5678" sample_fs =
      (Ok ({| run_config_file := "/tmp/tmpabcd1234/tmpefgh5678";
              testrun_tmp_dir := "/tmp/tmpabcd1234";
              unbuilt_dir := "/tmp/tmpabcd1234" |}, "/tmp/tmpabcd1234"), σ') /\
    σ' !! "/tmp/tmpabcd1234/debian/control" = Some (File "") /\
    σ' !! "/tmp/tmpabcd1234/debian/tests/upgrade" = Some (File "#!/bin/sh") /\
    σ' !! "/tmp" = Some Dir.
Proof.
  destruct (preparation_yields (H := accepting_backends) (H0 := sample_host)
              sample_testsuite "abcd1234" "efgh5678" sample_fs
              (PStr "14.04") (PStr "16.04")
              "Tests: upgrade" "#!/bin/sh" "upgrade-testing (1)"
              eq_refl eq_refl sample_fs_tmp sample_fs_fresh
              sample_fs_control sample_fs_upgrade sample_fs_changelog
              eq_refl eq_refl eq_refl)
    as (σ' & Hy & _ & _ & _ & _ & HDC & _ & _ & HTU & Hout).
  exists σ'. split; [exact Hy |]. split; [exact HDC |]. split; [exact HTU |].
  rewrite (Hout "/tmp" eq_refl). exact sample_fs_tmp.
Defined.

(** X12.  [_write_run_config] creates one file, directly inside the
    directory it is given, and writes nothing else.  The file holds the
    comment line and the six assignments in their fixed order, each value
    between double quotes exactly as it was formatted: nothing in a value is
    escaped, whatever characters it holds. *)
Theorem run_config_written `{Backends} `{HostEnv}
    (ts : TestSpecification) (temp_dir : path) (rnd : string)
    (σ : gmap string node) (s0 s1 : pyval) :
  temp_dir <> "" -> ends_with_slash temp_dir = false -> slash_free rnd ->
  σ !! temp_dir = Some Dir ->
  σ !! path_join temp_dir ("tmp" ++ rnd) = None ->
  initial_state (provisioning ts) = Ok s0 ->
  final_state (provisioning ts) = Ok s1 ->
  no_newline testbed_location ->
  exists file σ',
    _write_run_config ts temp_dir rnd σ = (Ok file, σ') /\
    file = temp_dir ++ "/" ++ "tmp" ++ rnd /\
    dirname file = temp_dir /\
    (forall p, p <> file -> σ' !! p = σ !! p) /\
    σ' !! file =
      Some (File
        ("# Auto Upgrade Test Configuration" ++ nl ++
         "PRE_TEST_LOCATION=" ++ dq ++ testbed_location ++ "/pre_scripts" ++ dq ++ nl ++
         "POST_TEST_LOCATION=" ++ dq ++ testbed_location ++ "/post_scripts" ++ dq ++ nl ++
         "PRE_TESTS_TO_RUN=" ++ dq ++ join " " (pre_upgrade_scripts ts) ++ dq ++ nl ++
         "POST_TESTS_TO_RUN=" ++ dq ++ join " " (post_upgrade_tests ts) ++ dq ++ nl ++
         "INITIAL_SYSTEM_STATE=" ++ dq ++ py_str s0 ++ dq ++ nl ++
         "POST_SYSTEM_STATE=" ++ dq ++ py_str s1 ++ dq ++ nl)).
Proof.
  intros Hne Hend Hrnd Hdir Hfresh Hs0 Hs1 Hloc.
  assert (Hjoin : path_join temp_dir ("tmp" ++ rnd) = temp_dir ++ "/" ++ "tmp" ++ rnd)
    by (apply path_join_relative; auto).
  eexists _, _. split.
  - apply (write_run_config_run ts temp_dir rnd σ s0 s1); assumption.
  - split; [exact Hjoin |]. split.
    + rewrite Hjoin. apply dirname_child; [exact Hne | exact Hend | exact Hrnd].
    + split.
      * intros p Hp. apply lookup_insert_ne. congruence.
      * rewrite lookup_insert_eq. unfold run_config_text, assignment.
        rewrite !append_assoc. reflexivity.
Qed.

Lemma run_config_written_witness :
  exists file σ',
    _write_run_config (H := accepting_backends) (H0 := sample_host)
      newline_testsuite "/tmp/tmpabcd1234" "efgh5678"
      (<["/tmp/tmpabcd1234" := Dir]> sample_fs) = (Ok file, σ') /\
    file = "/tmp/tmpabcd1234/tmpefgh5678" /\
    σ' !! "/tmp" = Some Dir.
Proof.
  destruct (run_config_written (H := accepting_backends) (H0 := sample_host)
              newline_testsuite "/tmp/tmpabcd1234" "efgh5678"
              (<["/tmp/tmpabcd1234" := Dir]> sample_fs) (PStr "14.04") (PStr "16.04"))
    as (file & σ' & Hrun & Hfile & _ & Hout & _).
  - discriminate.
  - reflexivity.
  - reflexivity.
  - apply lookup_insert_eq.
  - rewrite lookup_insert_ne by discriminate. apply sample_fs_fresh. reflexivity.
  - reflexivity.
  - reflexivity.
  - reflexivity.
  - exists file, σ'. split; [exact Hrun |]. split; [exact Hfile |].
    rewrite Hout by (rewrite Hfile; discriminate).
    rewrite lookup_insert_ne by discriminate. exact sample_fs_tmp.
Defined.

(** ** Set-up steps that fail *)

(** X13.  [_create_autopkg_details] cannot be run twice on a directory:
    [os.makedirs] is called without [exist_ok], so when [debian/tests]
    already exists the function raises [FileExistsError] for it and writes
    nothing. *)
Theorem create_autopkg_details_exists `{HostEnv}
    (temp_dir : path) (σ : gmap string node) (n : node) :
  temp_dir <> "" -> ends_with_slash temp_dir = false ->
  σ !! (temp_dir ++ "/debian") = Some Dir ->
  σ !! (temp_dir ++ "/debian/tests") = Some n ->
  _create_autopkg_details temp_dir σ =
    (Raise (FileExistsError (temp_dir ++ "/debian/tests")), σ).
Proof.
  intros Hne He HD HT.
  assert (HjD : path_join temp_dir "debian" = temp_dir ++ "/" ++ "debian")
    by (apply path_join_relative; auto).
  pose proof (child_nonempty temp_dir "debian") as HDne.
  pose proof (ends_with_slash_child temp_dir "debian" ltac:(discriminate) eq_refl) as HDe.
  assert (HjT : path_join (temp_dir ++ "/" ++ "debian") "tests"
                = (temp_dir ++ "/" ++ "debian") ++ "/" ++ "tests")
    by (apply path_join_relative; auto).
  assert (ET : temp_dir ++ "/debian/tests" = (temp_dir ++ "/" ++ "debian") ++ "/" ++ "tests")
    by (rewrite append_assoc; reflexivity).
  change (temp_dir ++ "/debian") with (temp_dir ++ "/" ++ "debian") in HD.
  rewrite ET in *.
  assert (Hsplit : path_split ((temp_dir ++ "/" ++ "debian") ++ "/" ++ "tests")
                   = (temp_dir ++ "/" ++ "debian", "tests"))
    by (apply path_split_child; auto; reflexivity).
  assert (Hdir : dirname ((temp_dir ++ "/" ++ "debian") ++ "/" ++ "tests")
                 = temp_dir ++ "/" ++ "debian")
    by (apply dirname_child; auto; reflexivity).
  assert (Hex : path_exists σ (temp_dir ++ "/" ++ "debian") = true)
    by (unfold path_exists; rewrite HD; apply orb_true_r).
  assert (Hmk : mkdir ((temp_dir ++ "/" ++ "debian") ++ "/" ++ "tests") σ
                = (Raise (FileExistsError ((temp_dir ++ "/" ++ "debian") ++ "/" ++ "tests")), σ)).
  { unfold mkdir. rewrite Hdir.
    rewrite (bindM_ok _ _ _ _ _ (dir_ok_dir _ σ HD)). rewrite HT. reflexivity. }
  unfold _create_autopkg_details. cbv zeta. rewrite HjD, HjT.
  unfold bindM at 1. unfold makedirs. cbn [makedirs_rec].
  rewrite Hsplit. cbv beta iota. simpl (String.eqb "tests" ""). cbv beta iota.
  rewrite Hex. rewrite andb_false_r. rewrite Hmk. reflexivity.
Qed.

Lemma create_autopkg_details_exists_witness :
  _create_autopkg_details (H := sample_host) "/srv/run"
    (<["/srv/run/debian/tests" := Dir]> (<["/srv/run/debian" := Dir]> empty_fs))
  = (Raise (FileExistsError "/srv/run/debian/tests"),
     <["/srv/run/debian/tests" := Dir]> (<["/srv/run/debian" := Dir]> empty_fs)).
Proof.
  apply (create_autopkg_details_exists (H := sample_host) "/srv/run"
           (<["/srv/run/debian/tests" := Dir]> (<["/srv/run/debian" := Dir]> empty_fs)) Dir).
  - discriminate.
  - reflexivity.
  - rewrite lookup_insert_ne by discriminate. apply lookup_insert_eq.
  - apply lookup_insert_eq.
Defined.

Lemma copyfile_missing (src dst : path) (σ : gmap string node) :
  σ !! src = None -> copyfile src dst σ = (Raise (FileNotFoundError src), σ).
Proof.
  intros Hs. unfold copyfile. rewrite Hs.
  rewrite bool_decide_eq_false_2 by (intros [x Hx]; discriminate).
  rewrite andb_false_r. unfold bindM, read_file. rewrite Hs. reflexivity.
Qed.

(** X14.  When the package data file [control] is missing, the copy
    raises [FileNotFoundError] for it after the run configuration and the
    directories were made; the [with] statement raises that error without
    entering the scope, and the temporary directory is removed again: the
    file system is as before. *)
Theorem missing_package_data `{Backends} `{HostEnv} {A : Type}
    (ts : TestSpecification) (rnd_dir rnd_file : string)
    (scope : TestrunTempFiles -> M A)
    (σ : gmap string node) (s0 s1 : pyval) :
  let td := path_join tempdir ("tmp" ++ rnd_dir) in
  let src := path_join source_dir "control" in
  slash_free rnd_dir -> slash_free rnd_file ->
  σ !! tempdir = Some Dir ->
  (forall p, in_tree td p = true -> σ !! p = None) ->
  σ !! src = None -> in_tree td src = false ->
  initial_state (provisioning ts) = Ok s0 ->
  final_state (provisioning ts) = Ok s1 ->
  no_newline testbed_location ->
  prepare_test_environment ts rnd_dir rnd_file scope σ = (Raise (FileNotFoundError src), σ).
Proof.
  intros td src Hr1 Hr2 Htmp Hfresh Hsrc Hout Hs0 Hs1 Hloc.
  destruct (path_join_tmp_normal tempdir rnd_dir Hr1) as [Hne He]. fold td in Hne, He.
  assert (HNtd : σ !! td = None) by (apply Hfresh, in_tree_self).
  unfold prepare_test_environment, prepare_test_environment_yield.
  rewrite (mkdtemp_fresh rnd_dir σ Htmp HNtd). fold td.
  assert (Hjf : path_join td ("tmp" ++ rnd_file) = td ++ "/" ++ "tmp" ++ rnd_file)
    by (apply path_join_relative; auto).
  assert (HjD : path_join td "debian" = td ++ "/" ++ "debian")
    by (apply path_join_relative; auto).
  pose proof (child_nonempty td "debian") as HD.
  pose proof (ends_with_slash_child td "debian" ltac:(discriminate) eq_refl) as HDe.
  assert (HjT : path_join (td ++ "/" ++ "debian") "tests" = (td ++ "/" ++ "debian") ++ "/" ++ "tests")
    by (apply path_join_relative; auto).
  assert (Hinf : in_tree td (td ++ "/" ++ "tmp" ++ rnd_file) = true)
    by (apply in_tree_child; auto; discriminate).
  assert (HinD : in_tree td (td ++ "/" ++ "debian") = true)
    by (apply in_tree_child; auto; discriminate).
  assert (HinT : in_tree td ((td ++ "/" ++ "debian") ++ "/" ++ "tests") = true)
    by (apply in_tree_inside, path_inside_grandchild; auto).
  assert (HNf : σ !! (td ++ "/" ++ "tmp" ++ rnd_file) = None) by (apply Hfresh, Hinf).
  assert (HND : σ !! (td ++ "/" ++ "debian") = None) by (apply Hfresh, HinD).
  assert (HNT : σ !! ((td ++ "/" ++ "debian") ++ "/" ++ "tests") = None) by (apply Hfresh, HinT).
  set (text := run_config_text testbed_location
                 (join " " (pre_upgrade_scripts ts)) (join " " (post_upgrade_tests ts))
                 (py_str s0) (py_str s1)).
  set (σ3 := <[(td ++ "/" ++ "debian") ++ "/" ++ "tests" := Dir]>
               (<[td ++ "/" ++ "debian" := Dir]>
                  (<[td ++ "/" ++ "tmp" ++ rnd_file := File text]> (<[td := Dir]> σ)))).
  assert (Hsetup : setup_steps ts td rnd_file (<[td := Dir]> σ)
                   = (Raise (FileNotFoundError src), σ3)).
  { unfold setup_steps.
    rewrite (bindM_ok _ _ _ _ _
               (write_run_config_run ts td rnd_file (<[td := Dir]> σ) s0 s1 Hne He Hr2
                  (lookup_insert_eq _ _ _)
                  ltac:(rewrite Hjf; fs_lookup) Hs0 Hs1 Hloc)).
    rewrite Hjf. fold text.
    unfold _create_autopkg_details, _copy_file. cbv zeta. rewrite HjD, HjT.
    unfold bindM at 1.
    erewrite (bindM_ok (makedirs _)); cycle 1.
    { apply makedirs_two_levels; auto; try discriminate; try reflexivity; fs_lookup. }
    fold σ3. fold src.
    assert (Hs3 : σ3 !! src = None).
    { unfold σ3. rewrite !(lookup_insert_outside td) by assumption.
      rewrite lookup_insert_ne; [exact Hsrc |].
      intros E. rewrite <- E, in_tree_self in Hout. discriminate. }
    unfold bindM at 1. rewrite (copyfile_missing src _ σ3 Hs3). reflexivity. }
  rewrite Hsetup.
  assert (Hd3 : σ3 !! td = Some Dir) by (unfold σ3; fs_lookup).
  unfold _cleanup_dir.
  destruct (rmtree_dir td σ3 Hd3) as (σ4 & Hrm & Hgone & Hsame).
  rewrite Hrm. f_equal. apply map_eq. intros p.
  destruct (in_tree td p) eqn:Hp.
  - rewrite (Hgone p Hp), (Hfresh p Hp). reflexivity.
  - rewrite (Hsame p Hp). unfold σ3.
    rewrite !(lookup_insert_outside td) by assumption.
    apply lookup_insert_ne. intros <-. rewrite in_tree_self in Hp. discriminate.
Qed.

Lemma missing_package_data_witness :
  prepare_test_environment (H := accepting_backends) (H0 := sample_host)
    sample_testsuite "abcd1234" "efgh5678" failing_scope (<["/tmp" := Dir]> empty_fs)
  = (Raise (FileNotFoundError "/usr/lib/upgrade_testing/data/control"),
     <["/tmp" := Dir]> empty_fs).
Proof.
  apply (missing_package_data (H := accepting_backends) (H0 := sample_host)
           sample_testsuite "abcd1234" "efgh5678" failing_scope
           (<["/tmp" := Dir]> empty_fs) (PStr "14.04") (PStr "16.04")).
  - reflexivity.
  - reflexivity.
  - apply lookup_insert_eq.
  - intros p Hp. rewrite lookup_insert_ne; [apply lookup_empty |].
    intros <-. vm_compute in Hp. discriminate Hp.
  - rewrite lookup_insert_ne by discriminate. apply lookup_empty.
  - reflexivity.
  - reflexivity.
  - reflexivity.
  - reflexivity.
Defined.

(** * A scope that does not leave the temporary directory in place *)


